(** * omstools: [download_plots.py]

    A shallow embedding of the fill-report downloader: the input parser
    [parse_input], the metadata lookup [get_fill_metadata], the orchestrator
    [download_plots] and the command-line entry point, followed by the
    properties of the specification settled against them.

    Conventions of the embedding.
    - A Python [str] is a [string]; a character is the code point of the same
      number, so the development carries the code points below 256.  The
      character classes below are those of [str.isspace], [str.splitlines]
      and [int] on that range.
    - A Python [int] is a [Z].
    - Code that may raise returns a [py_result]; [try]/[except] is [catch].
    - Calls to the outside world (browser, metadata service, file system,
      terminal) are recorded in a trace of [event]s, their outcome is read
      from an environment record. *)

From Stdlib Require Import ZArith List Strings.String Strings.Ascii Bool Lia.
From Stdlib Require Import Numbers.DecimalString.
From Stdlib Require Import Numbers.DecimalZ Numbers.DecimalPos.
Import ListNotations.

Local Open Scope string_scope.
Local Open Scope Z_scope.

(** ** Exceptions *)

Inductive exn : Type :=
| ValueError
| IndexError
| KeyError
| TypeError
| AttributeError
| OtherException (name : string)      (* any further subclass of Exception *)
| KeyboardInterrupt
| SystemExit (code : Z)
| OtherBaseException (name : string). (* outside the Exception hierarchy *)

(** [isinstance(e, Exception)]: what [except Exception] catches. *)
Definition is_Exception (e : exn) : bool :=
  match e with
  | KeyboardInterrupt | SystemExit _ | OtherBaseException _ => false
  | _ => true
  end.

Definition is_ValueError (e : exn) : bool :=
  match e with ValueError => true | _ => false end.

Definition is_KeyboardInterrupt (e : exn) : bool :=
  match e with KeyboardInterrupt => true | _ => false end.

Inductive py_result (A : Type) : Type :=
| Ok (a : A)
| Raise (e : exn).
Arguments Ok {A} a.
Arguments Raise {A} e.

Definition bind {A B : Type} (m : py_result A) (k : A -> py_result B)
  : py_result B :=
  match m with
  | Ok a => k a
  | Raise e => Raise e
  end.

Declare Scope py_scope.
Delimit Scope py_scope with py.
Notation "x <- m ;; k" := (bind m (fun x => k))
  (at level 61, m at next level, right associativity) : py_scope.

(** [try: body except <handles>: handler]. *)
Definition catch {A : Type} (body : py_result A) (handles : exn -> bool)
  (handler : exn -> py_result A) : py_result A :=
  match body with
  | Ok a => Ok a
  | Raise e => if handles e then handler e else Raise e
  end.

(** [for x in xs: st = body st x], stopping at the first exception. *)
Fixpoint for_each {S A : Type} (body : S -> A -> py_result S) (xs : list A)
  (st : S) : py_result S :=
  match xs with
  | [] => Ok st
  | x :: rest => bind (body st x) (for_each body rest)
  end.

(** [xs[0]]. *)
Definition index0 {A : Type} (xs : list A) : py_result A :=
  match xs with
  | [] => Raise IndexError
  | x :: _ => Ok x
  end.

(** ** Strings *)

Definition code (c : ascii) : N := N_of_ascii c.

(** [str.isspace] on one character. *)
Definition isspace (c : ascii) : bool :=
  let n := code c in
  ((9 <=? n) && (n <=? 13) || (28 <=? n) && (n <=? 32)
   || (n =? 133) || (n =? 160))%N.

(** The line boundaries of [str.splitlines]. *)
Definition is_linebreak (c : ascii) : bool :=
  let n := code c in
  ((10 <=? n) && (n <=? 13) || (28 <=? n) && (n <=? 30) || (n =? 133))%N.

Definition CR : ascii := ascii_of_N 13.
Definition LF : ascii := ascii_of_N 10.
Definition nl : string := String LF "".

Definition is_empty (s : string) : bool :=
  match s with "" => true | _ => false end.

(** Prepend a character to the first piece of a split. *)
Definition cons_first (c : ascii) (pieces : list string) : list string :=
  match pieces with
  | [] => [String c ""]
  | p :: ps => String c p :: ps
  end.

(** [s.splitlines()]: a line break ends a line, CR LF counts once, and a
    final line break opens no further line. *)
Fixpoint splitlines (s : string) : list string :=
  match s with
  | "" => []
  | String c rest =>
      if is_linebreak c then
        if Ascii.eqb c CR then
          match rest with
          | String c' rest' =>
              if Ascii.eqb c' LF then "" :: splitlines rest'
              else "" :: splitlines rest
          | "" => "" :: splitlines rest
          end
        else "" :: splitlines rest
      else cons_first c (splitlines rest)
  end.

Fixpoint lstrip (s : string) : string :=
  match s with
  | "" => ""
  | String c rest => if isspace c then lstrip rest else s
  end.

Fixpoint rstrip (s : string) : string :=
  match s with
  | "" => ""
  | String c rest =>
      let r := rstrip rest in
      if is_empty r && isspace c then "" else String c r
  end.

(** [s.strip()]. *)
Definition strip (s : string) : string := rstrip (lstrip s).

(** [s.startswith(c)] for a one-character prefix. *)
Definition startswith (c : ascii) (s : string) : bool :=
  match s with
  | String c' _ => Ascii.eqb c' c
  | "" => false
  end.

(** [c in s] for a one-character needle. *)
Fixpoint contains_char (c : ascii) (s : string) : bool :=
  match s with
  | "" => false
  | String c' rest => Ascii.eqb c' c || contains_char c rest
  end.

(** [s.split(sep)] for a one-character separator: never empty. *)
Fixpoint split_char (sep : ascii) (s : string) : list string :=
  match s with
  | "" => [""]
  | String c rest =>
      if Ascii.eqb c sep then "" :: split_char sep rest
      else cons_first c (split_char sep rest)
  end.

(** [s.split()]: maximal runs of characters that are not whitespace. *)
Fixpoint split_ws (s : string) : list string :=
  match s with
  | "" => []
  | String c rest =>
      if isspace c then split_ws rest
      else
        match rest with
        | "" => [String c ""]
        | String c' _ =>
            if isspace c' then String c "" :: split_ws rest
            else cons_first c (split_ws rest)
        end
  end.

(** [str(n)] for an int.  Beyond [sys.get_int_max_str_digits()] digits
    [str] raises instead; no such int arises in this program, whose ints
    come from literals that [int] accepted. *)
Definition str_int (n : Z) : string := NilZero.string_of_int (Z.to_int n).
Arguments str_int : simpl never.

(** ** [int(s)] *)

Definition is_digit (c : ascii) : bool :=
  ((48 <=? code c) && (code c <=? 57))%N.

Definition digit_value (c : ascii) : Z := Z.of_N (code c) - 48.

Definition underscore : ascii := "_"%char.

(** Default of [sys.get_int_max_str_digits()]: a literal with more digits
    is refused with ValueError. *)
Definition int_max_str_digits : nat := 4300.

(** Digits with single underscores between them; [prev_us] tells whether the
    previous character was an underscore.  Returns the value and the number
    of digits read. *)
Fixpoint scan_digits (prev_us : bool) (acc : Z) (digits : nat) (s : string)
  : option (Z * nat) :=
  match s with
  | "" => if prev_us then None else Some (acc, digits)
  | String c rest =>
      if Ascii.eqb c underscore then
        if prev_us then None else scan_digits true acc digits rest
      else if is_digit c then
        scan_digits false (acc * 10 + digit_value c) (S digits) rest
      else None
  end.

(** Sign and remainder of a literal. *)
Definition split_sign (s : string) : Z * string :=
  match s with
  | String c rest =>
      if Ascii.eqb c "-"%char then (-1, rest)
      else if Ascii.eqb c "+"%char then (1, rest)
      else (1, s)
  | "" => (1, s)
  end.

(** The whitespace [int] skips around a literal: the whitespace of C for
    ASCII, and outside ASCII what [str.isspace] accepts.  The separators
    28 to 31 are whitespace for [strip] and [split] but not here. *)
Definition is_int_space (c : ascii) : bool :=
  let n := code c in
  ((9 <=? n) && (n <=? 13) || (n =? 32) || (n =? 133) || (n =? 160))%N.

Fixpoint int_lstrip (s : string) : string :=
  match s with
  | "" => ""
  | String c rest => if is_int_space c then int_lstrip rest else s
  end.

Fixpoint int_rstrip (s : string) : string :=
  match s with
  | "" => ""
  | String c rest =>
      let r := int_rstrip rest in
      if is_empty r && is_int_space c then "" else String c r
  end.

Definition int_strip (s : string) : string := int_rstrip (int_lstrip s).

(** [int(s)]: base 10, surrounding whitespace allowed, optional sign,
    underscores only between digits. *)
Definition py_int (s : string) : py_result Z :=
  let (sign, body) := split_sign (int_strip s) in
  if startswith underscore body then Raise ValueError
  else
    match scan_digits false 0 0 body with
    | Some (v, digits) =>
        if (digits =? 0)%nat then Raise ValueError
        else if (int_max_str_digits <? digits)%nat then Raise ValueError
        else Ok (sign * v)
    | None => Raise ValueError
    end.

(** ** [parse_input] (lines 172-207) *)

Local Open Scope py_scope.

(** Body of the inner loop, lines 195-206; [fills] is the list being built. *)
Definition parse_part (fills : list Z) (part : string) : py_result (list Z) :=
  let part := strip part in
  if is_empty part then Ok fills                      (* continue *)
  else
    let tokens := split_ws part in
    match tokens with
    | _ :: _ =>
        catch (tok <- index0 tokens ;;
               n <- py_int tok ;;
               Ok (fills ++ [n])%list)
              is_ValueError
              (fun _ => Ok fills)
    | [] => Ok fills
    end.

(** Body of the outer loop, lines 179-206. *)
Definition parse_line (fills : list Z) (line : string) : py_result (list Z) :=
  let line := strip line in
  if is_empty line then Ok fills                      (* continue *)
  else if startswith "#"%char line then Ok fills      (* continue *)
  else
    line <- (if contains_char "#"%char line
             then index0 (split_char "#"%char line)
             else Ok line) ;;
    let comma_parts := split_char ","%char line in
    for_each parse_part comma_parts fills.

Definition parse_input (input_str : string) : py_result (list Z) :=
  let fills := [] in
  let lines := splitlines input_str in
  for_each parse_line lines fills.

(** The parser as section 4.1 of the specification words it: rules 1-8
    applied per stripped line, the results concatenated in order. *)
Module Reference.

(** Rule 4: the text before the first [#]. *)
Fixpoint truncate_at_hash (line : string) : string :=
  match line with
  | "" => ""
  | String c rest =>
      if Ascii.eqb c "#"%char then "" else String c (truncate_at_hash rest)
  end.

(** Rules 6-8 for one segment. *)
Definition segment_rule (segment : string) : list Z :=
  let segment := strip segment in
  if is_empty segment then []
  else
    match split_ws segment with
    | first :: _ =>
        match py_int first with
        | Ok n => [n]
        | Raise _ => []
        end
    | [] => []
    end.

(** Rules 2-8 for one stripped line. *)
Definition line_rule (line : string) : list Z :=
  if is_empty line then []
  else if startswith "#"%char line then []
  else flat_map segment_rule (split_char ","%char (truncate_at_hash line)).

Definition parse (text : string) : list Z :=
  flat_map line_rule (map strip (splitlines text)).

End Reference.

(** ** Values of the JSON response *)

Local Set Warnings "-register-all".

(** What [Response.json()] can return.  A float is kept as its IEEE 754
    binary64 bit pattern; a dict as its bindings, the first binding of a key
    being the one in force. *)
Inductive pyval : Type :=
| PNone
| PBool (b : bool)
| PInt (z : Z)
| PFloat (bits : N)
| PStr (s : string)
| PList (items : list pyval)
| PDict (bindings : list (string * pyval)).

(** [bool(v)]. *)
Definition truthy (v : pyval) : bool :=
  match v with
  | PNone => false
  | PBool b => b
  | PInt z => negb (z =? 0)
  | PFloat bits => negb (N.land bits (2 ^ 63 - 1) =? 0)%N
  | PStr s => negb (is_empty s)
  | PList [] => false
  | PList (_ :: _) => true
  | PDict [] => false
  | PDict (_ :: _) => true
  end.

Fixpoint lookup (key : string) (bindings : list (string * pyval))
  : option pyval :=
  match bindings with
  | [] => None
  | (k, v) :: rest => if String.eqb k key then Some v else lookup key rest
  end.

(** [v.get(key, default)]: only a dict has the method. *)
Definition py_get (v : pyval) (key : string) (default : pyval)
  : py_result pyval :=
  match v with
  | PDict bindings =>
      match lookup key bindings with
      | Some x => Ok x
      | None => Ok default
      end
  | _ => Raise AttributeError
  end.

(** [len(v)]; a dict counts its distinct keys. *)
Definition py_len (v : pyval) : py_result Z :=
  match v with
  | PStr s => Ok (Z.of_nat (String.length s))
  | PList items => Ok (Z.of_nat (List.length items))
  | PDict bindings =>
      Ok (Z.of_nat (List.length (nodup string_dec (map fst bindings))))
  | _ => Raise TypeError
  end.

(** [v[0]]; the keys of a JSON object are strings, so 0 is never one. *)
Definition py_item0 (v : pyval) : py_result pyval :=
  match v with
  | PList items => index0 items
  | PStr (String c _) => Ok (PStr (String c ""))
  | PStr "" => Raise IndexError
  | PDict _ => Raise KeyError
  | _ => Raise TypeError
  end.

Fixpoint take (n : nat) (s : string) : string :=
  match n, s with
  | S n', String c rest => String c (take n' rest)
  | _, _ => ""
  end.

(** [v[:4]]; a dict refuses a slice as a key. *)
Definition py_slice4 (v : pyval) : py_result pyval :=
  match v with
  | PStr s => Ok (PStr (take 4 s))
  | PList items => Ok (PList (firstn 4 items))
  | _ => Raise TypeError
  end.

(** [c.upper()].  The upper-case forms of code points 181 and 255 lie above
    255; they are left in place, which no test made on the result sees. *)
Definition upper_char (c : ascii) : string :=
  let n := code c in
  if ((97 <=? n) && (n <=? 122))%N then String (ascii_of_N (n - 32)) ""
  else if ((224 <=? n) && (n <=? 254) && negb (n =? 247))%N
       then String (ascii_of_N (n - 32)) ""
  else if (n =? 223)%N then "SS"
  else String c "".

Fixpoint upper (s : string) : string :=
  match s with
  | "" => ""
  | String c rest => upper_char c ++ upper rest
  end.

(** [v.upper()]: only a str has the method. *)
Definition py_upper (v : pyval) : py_result string :=
  match v with
  | PStr s => Ok (upper s)
  | _ => Raise AttributeError
  end.

(** [needle in s] for strings. *)
Fixpoint contains (needle s : string) : bool :=
  String.prefix needle s
  || match s with
     | "" => false
     | String _ rest => contains needle rest
     end.

(** ** [get_fill_metadata]: the response handling of lines 25-47 *)

Record metadata : Type := {
  meta_bunches : pyval;
  meta_system : string;
  meta_type : pyval;
  meta_year : pyval
}.

(** [fill_type and needle in fill_type.upper()]. *)
Definition type_mentions (fill_type : pyval) (needle : string)
  : py_result bool :=
  if truthy fill_type then
    u <- py_upper fill_type ;; Ok (contains needle u)
  else Ok false.

(** Lines 36-40. *)
Definition collision_system (fill_type : pyval) : py_result string :=
  let system := "pp" in
  ion <- type_mentions fill_type "ION" ;;
  pbpb <- (if ion then Ok true else type_mentions fill_type "PBPB") ;;
  if pbpb then Ok "PbPb"
  else
    proton <- type_mentions fill_type "PROTON" ;;
    if proton then Ok "pp" else Ok system.

(** Line 33. *)
Definition year_of (start_time : pyval) : py_result pyval :=
  if truthy start_time then py_slice4 start_time else Ok (PStr "UNKNOWN").

(** Lines 25-47: [Ok None] is falling through to [return None]. *)
Definition metadata_of_response (resp_json : pyval)
  : py_result (option metadata) :=
  data_list <- py_get resp_json "data" PNone ;;
  present <- (if truthy data_list
              then n <- py_len data_list ;; Ok (0 <? n)
              else Ok false) ;;
  if present then
    data <- py_item0 data_list ;;
    attributes <- py_get data "attributes" (PDict []) ;;
    fill_type <- py_get attributes "fill_type_runtime" (PStr "UNKNOWN") ;;
    bunches <- py_get attributes "bunches_colliding" (PInt 0) ;;
    start_time <- py_get attributes "start_time" (PStr "") ;;
    year <- year_of start_time ;;
    system <- collision_system fill_type ;;
    Ok (Some {| meta_bunches := bunches; meta_system := system;
                meta_type := fill_type; meta_year := year |})
  else Ok None.

(** ** Effects *)

Inductive event : Type :=
| Print (text : string)
| PrintExn (text : string) (e : exn)   (* print(f"<text>{e}") *)
| Makedirs (path : string)
| InstallDriver
| LaunchChrome (arguments : list string)
| QueryFills (fill_number : Z)
| DriverGet (url : string)
| Input (prompt : string)
| Sleep (seconds : Z)
| ExecuteScript (script : string)
| SaveScreenshot (filename : string)
| DriverQuit
| ReadFile (path : string).

(** A computation: the calls it made, in order, and how it ended. *)
Definition io (A : Type) : Type := (list event * py_result A)%type.

Definition io_ret {A : Type} (a : A) : io A := ([], Ok a).

Definition io_bind {A B : Type} (m : io A) (k : A -> io B) : io B :=
  match m with
  | (tr, Ok a) => let (tr', r) := k a in ((tr ++ tr')%list, r)
  | (tr, Raise e) => (tr, Raise e)
  end.

Declare Scope io_scope.
Delimit Scope io_scope with io.
Notation "x <- m ;; k" := (io_bind m (fun x => k))
  (at level 61, m at next level, right associativity) : io_scope.
Notation "m ;; k" := (io_bind m (fun _ => k))
  (at level 61, right associativity) : io_scope.

Definition lift {A : Type} (r : py_result A) : io A := ([], r).

(** A call to the outside: recorded, then returns or raises. *)
Definition call {A : Type} (ev : event) (outcome : py_result A) : io A :=
  ([ev], outcome).

Definition fails (failure : option exn) : py_result unit :=
  match failure with
  | None => Ok tt
  | Some e => Raise e
  end.

(** [print(text)].  Writing to the console is taken to succeed; the one
    write whose failure changes what the program does afterwards, that of
    line 169, has its outcome made explicit in [release] below. *)
Definition print (text : string) : io unit := call (Print text) (Ok tt).

Definition print_exn (text : string) (e : exn) : io unit :=
  call (PrintExn text e) (Ok tt).

(** [try: body except <handles> as e: handler e]. *)
Definition io_catch {A : Type} (body : io A) (handles : exn -> bool)
  (handler : exn -> io A) : io A :=
  match body with
  | (tr, Ok a) => (tr, Ok a)
  | (tr, Raise e) =>
      if handles e then let (tr', r) := handler e in ((tr ++ tr')%list, r)
      else (tr, Raise e)
  end.

(** [try: body finally: cleanup]: the cleanup always runs; when it raises,
    its exception is the one that leaves. *)
Definition io_finally {A : Type} (body : io A) (cleanup : io unit) : io A :=
  let (tr, r) := body in
  match cleanup with
  | (tr', Ok _) => ((tr ++ tr')%list, r)
  | (tr', Raise e) => ((tr ++ tr')%list, Raise e)
  end.

Definition trace {A : Type} (m : io A) : list event := fst m.
Definition result {A : Type} (m : io A) : py_result A := snd m.

Local Open Scope io_scope.

(** [get_fill_metadata] (lines 10-51).  [api] stands for lines 12-24: the
    import, the authentication and the query, up to the decoded response. *)
Definition get_fill_metadata (api : Z -> py_result pyval) (fill_number : Z)
  : io (option metadata) :=
  io_catch
    (resp_json <- call (QueryFills fill_number) (api fill_number) ;;
     lift (metadata_of_response resp_json))
    is_Exception
    (fun e =>
       print_exn ("Warning: Could not fetch metadata for fill "
                  ++ str_int fill_number ++ ": ") e ;;
       io_ret None).

(** ** Text formatting *)

(** [str(xs)] for a list of ints. *)
Definition str_int_list (xs : list Z) : string :=
  "[" ++ String.concat ", " (map str_int xs) ++ "]".

Fixpoint repeat_string (s : string) (n : nat) : string :=
  match n with
  | O => ""
  | S n' => s ++ repeat_string s n'
  end.

Fixpoint endswith (c : ascii) (s : string) : bool :=
  match s with
  | "" => false
  | String c' "" => Ascii.eqb c' c
  | String _ rest => endswith c rest
  end.

(** [os.path.join(a, b)] of posixpath. *)
Definition os_path_join (a b : string) : string :=
  if startswith "/"%char b || is_empty a then b
  else if endswith "/"%char a then a ++ b
  else a ++ "/" ++ b.

Definition hex_digit (n : N) : ascii :=
  if (n <? 10)%N then ascii_of_N (48 + n) else ascii_of_N (55 + n).

Definition percent (byte : N) : string :=
  String "%"%char
    (String (hex_digit (byte / 16)) (String (hex_digit (byte mod 16)) "")).

Definition is_unreserved (c : ascii) : bool :=
  let n := code c in
  ((48 <=? n) && (n <=? 57) || (65 <=? n) && (n <=? 90)
   || (97 <=? n) && (n <=? 122))%N
  || contains_char c "_.-~".

(** One character under [urllib.parse.quote_plus(_, safe)]: a space becomes
    a plus sign, any other character outside the unreserved and the safe
    ones is replaced by the escaped bytes of its UTF-8 encoding. *)
Definition quote_plus_char (safe : string) (c : ascii) : string :=
  let n := code c in
  if Ascii.eqb c " "%char then "+"
  else if (n <? 128)%N then
    if is_unreserved c || contains_char c safe then String c ""
    else percent n
  else percent (192 + n / 64) ++ percent (128 + n mod 64).

Fixpoint quote_plus (safe : string) (s : string) : string :=
  match s with
  | "" => ""
  | String c rest => quote_plus_char safe c ++ quote_plus safe rest
  end.

(** [urllib.parse.urlencode(params, safe=safe)]. *)
Definition urlencode (params : list (string * string)) (safe : string)
  : string :=
  String.concat "&"
    (map (fun kv => quote_plus safe (fst kv) ++ "=" ++ quote_plus safe (snd kv))
         params).

(** [params[key] = value] on a dict kept in insertion order. *)
Fixpoint dict_set (params : list (string * string)) (key value : string)
  : list (string * string) :=
  match params with
  | [] => [(key, value)]
  | (k, v) :: rest =>
      if String.eqb k key then (k, value) :: rest
      else (k, v) :: dict_set rest key value
  end.

(** ** Reading the fill list (lines 210-243) *)

(** What the file system and the terminal answer. *)
Record cli : Type := {
  isfile : string -> bool;                (* os.path.isfile *)
  read_file : string -> py_result string; (* open(path, 'r') and read() *)
  prompt_line : py_result string          (* input("> ") *)
}.

(** [sys.exit(status)]. *)
Definition sys_exit {A : Type} (status : Z) : io A :=
  lift (Raise (SystemExit status)).

(** Lines 210-243; [argv] is [sys.argv], the program name first. *)
Definition read_fill_list (c : cli) (argv : list string) : io (list Z) :=
  let fill_list := [] in
  match argv with
  | _ :: first_arg :: others =>
      if isfile c first_arg then
        print ("Reading fill numbers from file: " ++ first_arg) ;;
        io_catch
          (input_str <- call (ReadFile first_arg) (read_file c first_arg) ;;
           lift (parse_input input_str))
          is_Exception
          (fun e => print_exn "Error reading file: " e ;; sys_exit 1)
      else
        let input_str := String.concat " " (first_arg :: others) in
        lift (parse_input input_str)
  | _ =>
      io_catch
        (print "Enter Fill Numbers (separated by space or comma):" ;;
         print "OR enter a filename (e.g., fills.txt):" ;;
         user_input <- call (Input "> ") (prompt_line c) ;;
         if negb (is_empty (strip user_input)) then
           if isfile c (strip user_input) then
             print ("Reading fill numbers from file: " ++ strip user_input) ;;
             content <- call (ReadFile (strip user_input))
                             (read_file c (strip user_input)) ;;
             lift (parse_input content)
           else lift (parse_input user_input)
         else io_ret fill_list)
        is_KeyboardInterrupt
        (fun _ => sys_exit 0)
  end.

(** How the interpreter ends: the status of [sys.exit], 1 with a traceback
    for any other exception that nothing caught, 0 otherwise. *)
Definition exit_status {A : Type} (r : py_result A) : Z :=
  match r with
  | Ok _ => 0
  | Raise (SystemExit status) => status
  | Raise _ => 1
  end.

Definition uncaught {A : Type} (r : py_result A) : bool :=
  match r with
  | Ok _ => false
  | Raise (SystemExit _) => false
  | Raise _ => true
  end.

(** ** [download_plots] (lines 53-170) *)

(** What the outside answers during one run.  The per-fill answers are
    indexed by the position of the fill in the list. *)
Record env : Type := {
  dir_exists : bool;                    (* os.path.exists("fills") *)
  makedirs_fails : option exn;
  install_fails : option exn;           (* lines 74-75 *)
  launch_fails : option exn;            (* line 82 *)
  landing_fails : option exn;           (* line 90 *)
  login_input : py_result string;       (* line 98 *)
  oms : nat -> Z -> py_result pyval;    (* lines 12-24 *)
  navigate_fails : nat -> option exn;   (* line 128 *)
  sleep_fails : nat -> option exn;      (* line 133 *)
  script_fails : nat -> option exn;     (* line 152 *)
  screenshot_fails : nat -> option exn; (* line 163 *)
  quit_fails : option exn               (* line 170 *)
}.

Definition output_dir : string := "fills".
Definition user_data_dir : string := "/Users/leejunseok/chrome_debug_profile".
Definition base_url : string :=
  "https://cmsoms.cern.ch/cms/fills/report/fullscreen/12656".

Definition base_params : list (string * string) :=
  [ ("stable_beams", "true");
    ("props.21748_12648.plots", "Delivered lumi|Recorded lumi");
    ("props.21748_12648.plotbands", "downtimes");
    ("props.21748_12648.plotlines", "run_starts|stable_beams");
    ("props.21847_21846.plots",
     "B1orB2|Intensity beam 1|Intensity beam 2|beam energy|vertical crossing angle|beta* Y|beta* X");
    ("props.21847_21846.plotbands", "downtimes");
    ("props.21847_21846.plotlines", "run_starts|stable_beams") ].

Definition chrome_arguments : list string :=
  [ "--start-maximized"; "user-data-dir=" ++ user_data_dir ].

Section Orchestrator.

(** [str(v)] of a float, a list or a dict: the text the interpreter
    prints for them, which this program never inspects. *)
Variable str_compound : pyval -> string.

(** [str(v)], as an f-string field renders a value. *)
Definition py_str (v : pyval) : string :=
  match v with
  | PNone => "None"
  | PBool true => "True"
  | PBool false => "False"
  | PInt z => str_int z
  | PStr s => s
  | PFloat _ | PList _ | PDict _ => str_compound v
  end.

(** Line 118. *)
Definition meta_label (m : metadata) : string :=
  "[" ++ py_str (meta_year m) ++ " " ++ meta_system m ++ " "
  ++ py_str (meta_bunches m) ++ "b]".

(** Line 139. *)
Definition title_of (fill_number : Z) (m : metadata) : string :=
  "Fill " ++ str_int fill_number ++ " Bunches " ++ py_str (meta_bunches m)
  ++ " (" ++ meta_system m ++ " " ++ py_str (meta_year m) ++ ")".

(** Lines 141-150. *)
Definition script_of (new_title : string) : string :=
  nl
  ++ "                var titleEl = document.querySelector('h3') || document.querySelector('h1');" ++ nl
  ++ "                if (titleEl) {" ++ nl
  ++ "                    // Prepend the new info to the existing title" ++ nl
  ++ "                    titleEl.textContent = '" ++ new_title ++ " | ' + titleEl.textContent;" ++ nl
  ++ "                    titleEl.style.color = '#d32f2f'; // Red color" ++ nl
  ++ "                    titleEl.style.fontWeight = 'bold';" ++ nl
  ++ "                    titleEl.style.fontSize = '1.5em';" ++ nl
  ++ "                }" ++ nl
  ++ "                ".

(** Lines 157-160. *)
Definition filename_suffix_of (meta : option metadata) : string :=
  match meta with
  | Some m =>
      "_" ++ meta_system m ++ "_" ++ py_str (meta_bunches m) ++ "b_"
      ++ py_str (meta_year m)
  | None => ""
  end.

(** Line 162. *)
Definition filename_of (fill_number : Z) (meta : option metadata) : string :=
  os_path_join output_dir
    ("fill_" ++ str_int fill_number ++ filename_suffix_of meta ++ ".png").

(** Lines 122-125. *)
Definition url_of (fill_number : Z) : string :=
  let params := dict_set base_params "cms_fill" (str_int fill_number) in
  let query_string := urlencode params "|" in
  base_url ++ "?" ++ query_string.

(** One turn of the loop, lines 112-164, for the fill at position [k]. *)
Definition process_fill (w : env) (k : nat) (fill_number : Z) : io unit :=
  print (nl ++ "Processing Fill " ++ str_int fill_number ++ "...") ;;
  meta <- get_fill_metadata (oms w k) fill_number ;;
  match meta with
  | Some m =>
      print ("Metadata: " ++ meta_label m ++ " (Type: "
             ++ py_str (meta_type m) ++ ")")
  | None => io_ret tt
  end ;;
  call (DriverGet (url_of fill_number)) (fails (navigate_fails w k)) ;;
  let wait_time := 5 in
  print ("Waiting " ++ str_int wait_time ++ " seconds for plots to render...") ;;
  call (Sleep wait_time) (fails (sleep_fails w k)) ;;
  match meta with
  | Some m =>
      let new_title := title_of fill_number m in
      io_catch
        (call (ExecuteScript (script_of new_title)) (fails (script_fails w k)) ;;
         print ("Updated page title to: " ++ new_title))
        is_Exception
        (fun e => print_exn "Could not update page title: " e)
  | None => io_ret tt
  end ;;
  let filename := filename_of fill_number meta in
  call (SaveScreenshot filename) (fails (screenshot_fails w k)) ;;
  print ("Saved screenshot: " ++ filename).

(** [for fill_number in fill_numbers], from position [k] on. *)
Fixpoint process_fills (w : env) (k : nat) (fill_numbers : list Z)
  : io unit :=
  match fill_numbers with
  | [] => io_ret tt
  | fill_number :: rest =>
      process_fill w k fill_number ;; process_fills w (S k) rest
  end.

(** Lines 88-164: the body of the [try] that owns the browser session. *)
Definition session_body (w : env) (fill_numbers : list Z) : io unit :=
  call (DriverGet base_url) (fails (landing_fails w)) ;;
  print (nl ++ repeat_string "=" 60) ;;
  print "WAITING FOR LOGIN" ;;
  print "Please check the browser. If you need to log in (CERN SSO), do it now." ;;
  print "Once you see the page loaded, press Enter here to start downloading." ;;
  print (repeat_string "=" 60 ++ nl) ;;
  _ <- call (Input "Press Enter to continue... ") (login_input w) ;;
  process_fills w 0 fill_numbers.

(** Lines 87-170. *)
Definition session (w : env) (fill_numbers : list Z) : io unit :=
  io_finally
    (io_catch (session_body w fill_numbers) is_Exception
       (fun e => print_exn "An error occurred: " e))
    (print (nl ++ "Closing browser...") ;;
     call DriverQuit (fails (quit_fails w))).

(** [download_plots], lines 53-170.  The two [return]s of lines 78 and 85
    are the [false] answers of the guarded steps. *)
Definition download_plots (w : env) (fill_numbers : list Z) : io unit :=
  (if dir_exists w then io_ret tt
   else call (Makedirs output_dir) (fails (makedirs_fails w)) ;;
        print ("Created directory: " ++ output_dir)) ;;
  print ("Using Chrome profile at: " ++ user_data_dir) ;;
  print "Initializing Chrome browser..." ;;
  installed <- io_catch
                 (call InstallDriver (fails (install_fails w)) ;; io_ret true)
                 is_Exception
                 (fun e => print_exn "Error installing driver: " e ;;
                           io_ret false) ;;
  if negb installed then io_ret tt
  else
    launched <- io_catch
                  (call (LaunchChrome chrome_arguments)
                        (fails (launch_fails w)) ;; io_ret true)
                  is_Exception
                  (fun e => print_exn (nl ++ "Error launching Chrome: ") e ;;
                            io_ret false) ;;
    if negb launched then io_ret tt
    else session w fill_numbers.

(** Lines 168-170, the [finally] block, with the outcome of its console
    write made explicit: [closing_print] is the exception the write of line
    169 raises, if any (an interruption arriving there, a closed output).
    The session is ended by the statement after it. *)
Definition release (closing_print : option exn) (w : env) : io unit :=
  call (Print (nl ++ "Closing browser...")) (fails closing_print) ;;
  call DriverQuit (fails (quit_fails w)).

(** Lines 87-170 with that outcome. *)
Definition session_on (closing_print : option exn) (w : env)
  (fill_numbers : list Z) : io unit :=
  io_finally
    (io_catch (session_body w fill_numbers) is_Exception
       (fun e => print_exn "An error occurred: " e))
    (release closing_print w).

(** [download_plots], lines 53-170, with that outcome. *)
Definition download_plots_on (closing_print : option exn) (w : env)
  (fill_numbers : list Z) : io unit :=
  (if dir_exists w then io_ret tt
   else call (Makedirs output_dir) (fails (makedirs_fails w)) ;;
        print ("Created directory: " ++ output_dir)) ;;
  print ("Using Chrome profile at: " ++ user_data_dir) ;;
  print "Initializing Chrome browser..." ;;
  installed <- io_catch
                 (call InstallDriver (fails (install_fails w)) ;; io_ret true)
                 is_Exception
                 (fun e => print_exn "Error installing driver: " e ;;
                           io_ret false) ;;
  if negb installed then io_ret tt
  else
    launched <- io_catch
                  (call (LaunchChrome chrome_arguments)
                        (fails (launch_fails w)) ;; io_ret true)
                  is_Exception
                  (fun e => print_exn (nl ++ "Error launching Chrome: ") e ;;
                            io_ret false) ;;
    if negb launched then io_ret tt
    else session_on closing_print w fill_numbers.

(** Lines 245-249. *)
Definition dispatch (w : env) (fill_list : list Z) : io unit :=
  match fill_list with
  | _ :: _ =>
      print ("Found " ++ str_int (Z.of_nat (List.length fill_list))
             ++ " fills: " ++ str_int_list fill_list) ;;
      download_plots w fill_list
  | [] => print "No valid fill numbers provided."
  end.

(** The script, lines 209-249. *)
Definition main (c : cli) (w : env) (argv : list string) : io unit :=
  fill_list <- read_fill_list c argv ;;
  dispatch w fill_list.

End Orchestrator.

(** ** Vocabulary of the properties *)

(** Every character of [s] satisfies [p]. *)
Fixpoint all_chars (p : ascii -> bool) (s : string) : bool :=
  match s with
  | "" => true
  | String c rest => p c && all_chars p rest
  end.

Definition not_digit (c : ascii) : bool := negb (is_digit c).

(** The inputs of the examples of the specification. *)
Definition commented_input : string :=
  "# comment" ++ nl ++ "11316 1032, 222 # trailing" ++ nl.
Definition comment_only_input : string :=
  "   " ++ nl ++ "# only comments" ++ nl.

(** The file names handed to [save_screenshot], in order. *)
Fixpoint screenshots (tr : list event) : list string :=
  match tr with
  | [] => []
  | SaveScreenshot filename :: rest => filename :: screenshots rest
  | _ :: rest => screenshots rest
  end.

(** The scripts handed to [execute_script], in order. *)
Fixpoint scripts (tr : list event) : list string :=
  match tr with
  | [] => []
  | ExecuteScript script :: rest => script :: scripts rest
  | _ :: rest => scripts rest
  end.

(** The metadata a lookup hands to the loop, if any. *)
Definition obtained (api : Z -> py_result pyval) (fill_number : Z)
  : option metadata :=
  match result (get_fill_metadata api fill_number) with
  | Ok (Some m) => Some m
  | _ => None
  end.

(** [fields.get(key, default)] on the bindings of a dict. *)
Definition attribute_or (fields : list (string * pyval)) (key : string)
  (default : pyval) : pyval :=
  match lookup key fields with
  | Some v => v
  | None => default
  end.

Definition is_text (v : pyval) : bool :=
  match v with
  | PStr _ => true
  | _ => false
  end.

Definition is_sequence (v : pyval) : bool :=
  match v with
  | PStr _ | PList _ => true
  | _ => false
  end.

(** The entry lines 28-33 read: the first item of a "data" that is a list
    with at least one item. *)
Definition first_entry (resp_json : pyval) : option pyval :=
  match resp_json with
  | PDict fields =>
      match attribute_or fields "data" PNone with
      | PList (entry :: _) => Some entry
      | _ => None
      end
  | _ => None
  end.

(** The attributes lines 30-40 can work with: an object whose fill type is
    a text or a value Python takes for false, and whose start time is a
    text, a list or a value Python takes for false.  Attributes that are
    absent stand for their defaults; the bunch count can be anything. *)
Definition usable_attributes (attributes : pyval) : bool :=
  match attributes with
  | PDict fields =>
      let fill_type :=
        attribute_or fields "fill_type_runtime" (PStr "UNKNOWN") in
      let start_time := attribute_or fields "start_time" (PStr "") in
      (negb (truthy fill_type) || is_text fill_type)
      && (negb (truthy start_time) || is_sequence start_time)
  | _ => false
  end.

Definition usable_entry (entry : pyval) : bool :=
  match entry with
  | PDict fields =>
      usable_attributes (attribute_or fields "attributes" (PDict []))
  | _ => false
  end.

(** The responses lines 25-47 get metadata from. *)
Definition usable_response (resp_json : pyval) : bool :=
  match first_entry resp_json with
  | Some entry => usable_entry entry
  | None => false
  end.

(** The ways a lookup fails: the service call raises an error; the
    response holds no entry, its "data" being absent, null, empty or
    another value Python takes for false; or the response is none that
    [usable_response] describes. *)
Inductive lookup_failure (answer : py_result pyval) : Prop :=
| transport_error (e : exn) :
    answer = Raise e -> is_Exception e = true -> lookup_failure answer
| unusable_response (resp_json : pyval) :
    answer = Ok resp_json -> usable_response resp_json = false ->
    lookup_failure answer
| no_matching_entry (resp_json data_list : pyval) :
    answer = Ok resp_json ->
    py_get resp_json "data" PNone = Ok data_list ->
    truthy data_list = false ->
    lookup_failure answer.

(** Nothing but errors of the Exception hierarchy can be raised. *)
Definition only_exceptions {A : Type} (r : py_result A) : Prop :=
  match r with
  | Ok _ => True
  | Raise e => is_Exception e = true
  end.

(** The start-time attribute of the first entry of a response. *)
Definition start_time_of (resp_json : pyval) : py_result pyval :=
  (data_list <- py_get resp_json "data" PNone ;;
   data <- py_item0 data_list ;;
   attributes <- py_get data "attributes" (PDict []) ;;
   py_get attributes "start_time" (PStr ""))%py.

(** The two shapes the data model gives a year. *)
Definition is_year_shape (v : pyval) : bool :=
  match v with
  | PStr s => (String.length s =? 4)%nat || String.eqb s "UNKNOWN"
  | _ => false
  end.

(** A response with one entry carrying the given attributes. *)
Definition one_entry (attributes : list (string * pyval)) : pyval :=
  PDict [("data", PList [PDict [("attributes", PDict attributes)]])].

Definition short_start_response : pyval :=
  one_entry [("bunches_colliding", PInt 2400);
             ("fill_type_runtime", PStr "PROTONS");
             ("start_time", PStr "20")].

Definition usual_response : pyval :=
  one_entry [("bunches_colliding", PInt 2400);
             ("fill_type_runtime", PStr "PROTONS");
             ("start_time", PStr "2024-05-01T10:00:00Z")].

(** A response whose entry carries nothing, and one whose entry carries
    the three attributes as nulls. *)
Definition bare_entry_response : pyval := PDict [("data", PList [PDict []])].

Definition null_attributes_response : pyval :=
  one_entry [("bunches_colliding", PNone);
             ("fill_type_runtime", PNone);
             ("start_time", PNone)].

(** The entry as the specification describes it (its sections 3 and 6): it
    carries the attributes asked for, the bunch count a non-negative
    integer, the fill type and the start time texts. *)
Definition complete_attributes (attributes : pyval) : bool :=
  match attributes with
  | PDict fields =>
      match lookup "bunches_colliding" fields,
            lookup "fill_type_runtime" fields,
            lookup "start_time" fields with
      | Some (PInt n), Some (PStr _), Some (PStr _) => 0 <=? n
      | _, _, _ => false
      end
  | _ => false
  end.

Definition complete_entry (entry : pyval) : bool :=
  match entry with
  | PDict fields =>
      match lookup "attributes" fields with
      | Some attributes => complete_attributes attributes
      | None => false
      end
  | _ => false
  end.

(** A response whose first entry is not of this kind: it has missing
    fields or is malformed. *)
Definition incomplete_entry (resp_json : pyval) : bool :=
  match first_entry resp_json with
  | Some entry => negb (complete_entry entry)
  | None => false
  end.

(** An outside where every call succeeds; the lookup answers [answer]. *)
Definition calm (answer : nat -> Z -> py_result pyval) : env :=
  {| dir_exists := true; makedirs_fails := None; install_fails := None;
     launch_fails := None; landing_fails := None; login_input := Ok "";
     oms := answer;
     navigate_fails := fun _ => None; sleep_fails := fun _ => None;
     script_fails := fun _ => None; screenshot_fails := fun _ => None;
     quit_fails := None |}.

(** The file each fill of a run is saved to, from position [k] on. *)
Fixpoint expected_files (str_compound : pyval -> string) (w : env) (k : nat)
  (fill_numbers : list Z) : list string :=
  match fill_numbers with
  | [] => []
  | fill_number :: rest =>
      filename_of str_compound fill_number (obtained (oms w k) fill_number)
      :: expected_files str_compound w (S k) rest
  end.

(** The output directory: which screenshot, by serial number, each path
    holds.  [save_screenshot] opens its file for writing, so it replaces
    what the path held. *)
Definition file_store : Type := string -> option nat.

Definition write_file (path : string) (shot : nat) (st : file_store)
  : file_store :=
  fun q => if String.eqb q path then Some shot else st q.

Definition example_metadata : metadata :=
  {| meta_bunches := PInt 2400; meta_system := "pp";
     meta_type := PStr "PROTONS"; meta_year := PStr "2024" |}.

(** The run reaches the loop: directory, driver, browser, landing page and
    the operator's Enter all succeed. *)
Definition starts (w : env) : Prop :=
  (dir_exists w = true \/ makedirs_fails w = None)
  /\ install_fails w = None /\ launch_fails w = None
  /\ landing_fails w = None /\ exists line, login_input w = Ok line.

(** No navigation, wait or screenshot raises at any position. *)
Definition no_hard_error (w : env) : Prop :=
  forall j, navigate_fails w j = None /\ sleep_fails w j = None
            /\ screenshot_fails w j = None.

(** Lookups and scripts may fail, with errors of the Exception hierarchy. *)
Definition soft_errors_only (w : env) : Prop :=
  (forall j g e, oms w j g = Raise e -> is_Exception e = true)
  /\ (forall j e, script_fails w j = Some e -> is_Exception e = true).

(** An outside whose metadata service is down. *)
Definition service_down : env :=
  calm (fun _ _ => Raise (OtherException "ConnectionError")).

(** An outside that knows fill 11316 only, and whose scripts fail. *)
Definition flaky : env :=
  {| dir_exists := false; makedirs_fails := None; install_fails := None;
     launch_fails := None; landing_fails := None; login_input := Ok "";
     oms := fun _ g => if g =? 11316 then Ok usual_response
                       else Raise (OtherException "ConnectionError");
     navigate_fails := fun _ => None; sleep_fails := fun _ => None;
     script_fails := fun _ => Some (OtherException "JavascriptException");
     screenshot_fails := fun _ => None;
     quit_fails := None |}.

(** An outside where the page of the second fill cannot be loaded. *)
Definition stalled : env :=
  {| dir_exists := true; makedirs_fails := None; install_fails := None;
     launch_fails := None; landing_fails := None; login_input := Ok "";
     oms := fun _ _ => Ok usual_response;
     navigate_fails := fun j => if (j =? 1)%nat
                                then Some (OtherException "TimeoutException")
                                else None;
     sleep_fails := fun _ => None; script_fails := fun _ => None;
     screenshot_fails := fun _ => None;
     quit_fails := None |}.

(** An outside where the operator interrupts the login pause. *)
Definition interrupted : env :=
  {| dir_exists := true; makedirs_fails := None; install_fails := None;
     launch_fails := None; landing_fails := None;
     login_input := Raise KeyboardInterrupt;
     oms := fun _ _ => Ok usual_response;
     navigate_fails := fun _ => None; sleep_fails := fun _ => None;
     script_fails := fun _ => None; screenshot_fails := fun _ => None;
     quit_fails := None |}.

(** [str] of compound values, for the examples: none occurs in them. *)
Definition no_compound (v : pyval) : string := "".

(** A file that exists and cannot be read, named at the prompt. *)
Definition locked : cli :=
  {| isfile := fun path => String.eqb path "locked.txt";
     read_file := fun _ => Raise (OtherException "PermissionError");
     prompt_line := Ok "locked.txt" |}.

(** A directory holding one readable list of fills. *)
Definition listing : cli :=
  {| isfile := fun path => String.eqb path "fills.txt";
     read_file := fun _ => Ok ("11316" ++ nl ++ "222" ++ nl);
     prompt_line := Ok "" |}.

(** Character classes used by the further properties. *)
Definition not_space (c : ascii) : bool := negb (isspace c).
Definition not_linebreak (c : ascii) : bool := negb (is_linebreak c).
Definition not_comma (c : ascii) : bool := negb (Ascii.eqb c ","%char).
Definition not_hash (c : ascii) : bool := negb (Ascii.eqb c "#"%char).

(** A character that ends neither a line nor a comma-separated segment. *)
Definition within_segment (c : ascii) : bool := not_linebreak c && not_comma c.

(** A character of a bare token: no whitespace, comma or hash. *)
Definition bare (c : ascii) : bool := not_space c && not_comma c && not_hash c.

(** A character of the decimal text of an integer. *)
Definition is_decimal_char (c : ascii) : bool :=
  is_digit c || Ascii.eqb c "-"%char.

(** The value of decimal digits read from the left, continuing [acc]. *)
Fixpoint uint_value (acc : Z) (d : Decimal.uint) : Z :=
  match d with
  | Decimal.Nil => acc
  | Decimal.D0 d' => uint_value (acc * 10 + 0) d'
  | Decimal.D1 d' => uint_value (acc * 10 + 1) d'
  | Decimal.D2 d' => uint_value (acc * 10 + 2) d'
  | Decimal.D3 d' => uint_value (acc * 10 + 3) d'
  | Decimal.D4 d' => uint_value (acc * 10 + 4) d'
  | Decimal.D5 d' => uint_value (acc * 10 + 5) d'
  | Decimal.D6 d' => uint_value (acc * 10 + 6) d'
  | Decimal.D7 d' => uint_value (acc * 10 + 7) d'
  | Decimal.D8 d' => uint_value (acc * 10 + 8) d'
  | Decimal.D9 d' => uint_value (acc * 10 + 9) d'
  end.

(** The number the first whitespace token of a text reads as, if any:
    what lines 201-206 add to the list. *)
Definition first_number (text : string) : list Z :=
  match split_ws text with
  | tok :: _ =>
      match py_int tok with
      | Ok n => [n]
      | Raise _ => []
      end
  | [] => []
  end.

(** The text is empty or begins with whitespace. *)
Definition starts_blank (s : string) : bool :=
  match s with
  | "" => true
  | String c _ => isspace c
  end.

(** The decimal text of [n] is short enough for [int]. *)
Definition within_int_limit (n : Z) : Prop :=
  (String.length (str_int n) <= int_max_str_digits)%nat.

(** The numbers of one line, read without any stripping: the first token
    of each comma-separated piece of the text before the first [#]. *)
Definition numbers_of_line (line : string) : list Z :=
  flat_map first_number
           (split_char ","%char (Reference.truncate_at_hash line)).

(** A character of a line that holds no comment. *)
Definition plain_line_char (c : ascii) : bool := not_linebreak c && not_hash c.

(** The metadata of an entry that carries none of the attributes. *)
Definition default_metadata : metadata :=
  {| meta_bunches := PInt 0; meta_system := "pp";
     meta_type := PStr "UNKNOWN"; meta_year := PStr "UNKNOWN" |}.

(** The system line 36-40 derive from the text of a fill type. *)
Definition system_of_type (s : string) : string :=
  if contains "ION" (upper s) || contains "PBPB" (upper s)
  then "PbPb" else "pp".

(** The report address up to the fill number. *)
Definition report_url_prefix : string :=
  "https://cmsoms.cern.ch/cms/fills/report/fullscreen/12656?stable_beams=true&props.21748_12648.plots=Delivered+lumi|Recorded+lumi&props.21748_12648.plotbands=downtimes&props.21748_12648.plotlines=run_starts|stable_beams&props.21847_21846.plots=B1orB2|Intensity+beam+1|Intensity+beam+2|beam+energy|vertical+crossing+angle|beta%2A+Y|beta%2A+X&props.21847_21846.plotbands=downtimes&props.21847_21846.plotlines=run_starts|stable_beams&cms_fill=".

(** The calls to the outside in a trace, console output left out. *)
Fixpoint calls (tr : list event) : list event :=
  match tr with
  | [] => []
  | Print _ :: rest => calls rest
  | PrintExn _ _ :: rest => calls rest
  | ev :: rest => ev :: calls rest
  end.


(** The calls before the browser is asked for. *)
Definition setup_calls (w : env) : list event :=
  ((if dir_exists w then [] else [Makedirs output_dir])
   ++ [InstallDriver])%list.

(** An outside where the driver cannot be installed. *)
Definition no_driver : env :=
  {| dir_exists := false; makedirs_fails := None;
     install_fails := Some (OtherException "ConnectionError");
     launch_fails := None; landing_fails := None; login_input := Ok "";
     oms := fun _ _ => Ok usual_response;
     navigate_fails := fun _ => None; sleep_fails := fun _ => None;
     script_fails := fun _ => None; screenshot_fails := fun _ => None;
     quit_fails := None |}.


(** A terminal closed before anything is typed. *)
Definition closed_terminal : cli :=
  {| isfile := fun _ => false;
     read_file := fun _ => Raise (OtherException "FileNotFoundError");
     prompt_line := Raise (OtherException "EOFError") |}.

(** The call that ends the browser session. *)
Definition ends_session (ev : event) : bool :=
  match ev with
  | DriverQuit => true
  | _ => false
  end.

(** What the prompt prints and asks before anything else happens. *)
Definition prompt_events : list event :=
  [Print "Enter Fill Numbers (separated by space or comma):";
   Print "OR enter a filename (e.g., fills.txt):";
   Input "> "].

(** * Properties *)

(** Proof steps shared below. *)

Ltac run :=
  cbv beta iota zeta
    delta [io_bind io_ret print print_exn call io_catch io_finally lift
           fails trace result fst snd negb].

Ltac split_outcomes :=
  repeat (run;
          match goal with
          | |- context [match ?x with Some _ => _ | None => _ end] =>
              destruct x
          | |- context [if is_Exception ?e then _ else _] =>
              destruct (is_Exception e)
          end);
  run.

Ltac step H :=
  match type of H with
  | bind ?m _ = Ok _ =>
      let E := fresh "E" in
      destruct m eqn:E; simpl in H; [|discriminate H]
  end.


(** ** The parser *)

Section ParserFacts.

Local Open Scope py_scope.

Lemma py_int_raises s e : py_int s = Raise e -> e = ValueError.
Proof.
  unfold py_int. destruct (split_sign (int_strip s)) as [sign body].
  destruct (startswith underscore body); [congruence|].
  destruct (scan_digits false 0 0 body) as [[v d]|]; [|congruence].
  destruct (d =? 0)%nat; [congruence|].
  destruct (int_max_str_digits <? d)%nat; congruence.
Qed.

Lemma truncate_without_hash line :
  contains_char "#"%char line = false ->
  Reference.truncate_at_hash line = line.
Proof.
  induction line as [|c rest IH]; simpl; [reflexivity|].
  destruct (Ascii.eqb c "#"%char); simpl; [discriminate|].
  intros H. now rewrite IH.
Qed.

Lemma split_char_head line :
  index0 (split_char "#"%char line) = Ok (Reference.truncate_at_hash line).
Proof.
  induction line as [|c rest IH]; simpl; [reflexivity|].
  destruct (Ascii.eqb c "#"%char); simpl; [reflexivity|].
  destruct (split_char "#"%char rest) as [|piece pieces]; simpl in *.
  - discriminate.
  - congruence.
Qed.

Lemma parse_part_appends fills part :
  parse_part fills part = Ok (fills ++ Reference.segment_rule part)%list.
Proof.
  unfold parse_part, Reference.segment_rule.
  destruct (is_empty (strip part)); [now rewrite app_nil_r|].
  destruct (split_ws (strip part)) as [|tok toks]; [now rewrite app_nil_r|].
  simpl. destruct (py_int tok) as [n|e] eqn:E; simpl; [reflexivity|].
  apply py_int_raises in E. subst e. simpl. now rewrite app_nil_r.
Qed.

(** A loop whose body only appends computes a [flat_map]. *)
Lemma for_each_appends {A : Type} (body : list Z -> A -> py_result (list Z))
    (rule : A -> list Z) :
  (forall st x, body st x = Ok (st ++ rule x)%list) ->
  forall xs st, for_each body xs st = Ok (st ++ flat_map rule xs)%list.
Proof.
  intros Hbody xs. induction xs as [|x rest IH]; intros st; simpl.
  - now rewrite app_nil_r.
  - rewrite Hbody. simpl. rewrite IH. now rewrite app_assoc.
Qed.

Lemma parse_line_appends fills line :
  parse_line fills line = Ok (fills ++ Reference.line_rule (strip line))%list.
Proof.
  unfold parse_line, Reference.line_rule.
  destruct (is_empty (strip line)); [now rewrite app_nil_r|].
  destruct (startswith "#"%char (strip line)); [now rewrite app_nil_r|].
  destruct (contains_char "#"%char (strip line)) eqn:E.
  - rewrite split_char_head. simpl.
    apply for_each_appends, parse_part_appends.
  - simpl. rewrite (truncate_without_hash _ E).
    apply for_each_appends, parse_part_appends.
Qed.

Lemma parse_input_refines input_str :
  parse_input input_str = Ok (Reference.parse input_str).
Proof.
  unfold parse_input, Reference.parse.
  rewrite (for_each_appends parse_line (fun l => Reference.line_rule (strip l))).
  - simpl. generalize (splitlines input_str) as lines.
    induction lines as [|l ls IH]; simpl; congruence.
  - apply parse_line_appends.
Qed.

End ParserFacts.

(** C1. For every input, [parse_input] returns the sequence the rules of
    section 4.1 give, line by line and in order, duplicates kept; on the
    commented example it returns 11316 and 222. *)
Theorem C1_parse_follows_reference_rules :
  (forall input_str, parse_input input_str = Ok (Reference.parse input_str))
  /\ parse_input commented_input = Ok [11316; 222]
  /\ parse_input "3, 1, 3" = Ok [3; 1; 3].
Proof.
  split; [exact parse_input_refines|].
  split; reflexivity.
Qed.

(** ** Characters of the input and of the tokens *)

Section CharacterFacts.

Variable p : ascii -> bool.

Let pieces_ok (pieces : list string) : Prop :=
  Forall (fun t => all_chars p t = true) pieces.

Lemma all_chars_lstrip s :
  all_chars p s = true -> all_chars p (lstrip s) = true.
Proof.
  induction s as [|c rest IH]; simpl; [trivial|].
  intros H. apply andb_prop in H as [Hc Hrest].
  destruct (isspace c); [auto|]. simpl. now rewrite Hc, Hrest.
Qed.

Lemma all_chars_rstrip s :
  all_chars p s = true -> all_chars p (rstrip s) = true.
Proof.
  induction s as [|c rest IH]; simpl; [trivial|].
  intros H. apply andb_prop in H as [Hc Hrest].
  destruct (is_empty (rstrip rest) && isspace c); [reflexivity|].
  simpl. now rewrite Hc, IH.
Qed.

Lemma all_chars_strip s :
  all_chars p s = true -> all_chars p (strip s) = true.
Proof. intros H. now apply all_chars_rstrip, all_chars_lstrip. Qed.

Lemma all_chars_int_strip s :
  all_chars p s = true -> all_chars p (int_strip s) = true.
Proof.
  intros H. unfold int_strip.
  assert (Hl : all_chars p (int_lstrip s) = true).
  { revert H. induction s as [|c rest IH]; simpl; [trivial|].
    intros H. pose proof H as H'. apply andb_prop in H' as [Hc Hrest].
    destruct (is_int_space c); [auto|exact H]. }
  revert Hl. clear H. generalize (int_lstrip s) as t.
  induction t as [|c rest IH]; simpl; [trivial|].
  intros H. apply andb_prop in H as [Hc Hrest].
  destruct (is_empty (int_rstrip rest) && is_int_space c); [reflexivity|].
  simpl. now rewrite Hc, IH.
Qed.

Lemma all_chars_truncate s :
  all_chars p s = true -> all_chars p (Reference.truncate_at_hash s) = true.
Proof.
  induction s as [|c rest IH]; simpl; [trivial|].
  intros H. apply andb_prop in H as [Hc Hrest].
  destruct (Ascii.eqb c "#"%char); [reflexivity|].
  simpl. now rewrite Hc, IH.
Qed.

Lemma cons_first_ok c pieces :
  p c = true -> pieces_ok pieces -> pieces_ok (cons_first c pieces).
Proof.
  intros Hc Hp. destruct pieces as [|t ts]; simpl.
  - constructor; [simpl; now rewrite Hc | constructor].
  - inversion Hp; subst. constructor; [simpl; now rewrite Hc | assumption].
Qed.

Lemma splitlines_ok s :
  all_chars p s = true -> pieces_ok (splitlines s).
Proof.
  remember (String.length s) as n eqn:Hn.
  assert (Hle : (String.length s <= n)%nat) by lia. clear Hn.
  revert s Hle. induction n as [|n IH]; intros [|c rest] Hle H;
    simpl in *; try (constructor; fail); try lia.
  apply andb_prop in H as [Hc Hrest].
  assert (Hrest_ok : pieces_ok (splitlines rest)) by (apply IH; [lia|assumption]).
  destruct (is_linebreak c).
  - destruct (Ascii.eqb c CR); [|constructor; trivial].
    destruct rest as [|c' rest']; [constructor; trivial|].
    destruct (Ascii.eqb c' LF); [|constructor; trivial].
    constructor; [reflexivity|]. simpl in Hle, Hrest.
    apply andb_prop in Hrest as [_ Hrest']. apply IH; [lia|assumption].
  - now apply cons_first_ok.
Qed.

Lemma split_char_ok sep s :
  all_chars p s = true -> pieces_ok (split_char sep s).
Proof.
  induction s as [|c rest IH]; simpl.
  - intros _. constructor; [reflexivity|constructor].
  - intros H. apply andb_prop in H as [Hc Hrest].
    destruct (Ascii.eqb c sep).
    + constructor; [reflexivity|apply IH, Hrest].
    + apply cons_first_ok; [assumption|apply IH, Hrest].
Qed.

Lemma split_ws_ok s :
  all_chars p s = true -> pieces_ok (split_ws s).
Proof.
  induction s as [|c rest IH]; [constructor|].
  intros H. simpl in H. apply andb_prop in H as [Hc Hrest].
  specialize (IH Hrest).
  change (split_ws (String c rest)) with
    (if isspace c then split_ws rest
     else match rest with
          | "" => [String c ""]
          | String c' _ =>
              if isspace c' then String c "" :: split_ws rest
              else cons_first c (split_ws rest)
          end).
  assert (Hone : all_chars p (String c "") = true) by (simpl; now rewrite Hc).
  destruct (isspace c); [assumption|].
  destruct rest as [|c' rest'] eqn:E; [constructor; [assumption|constructor]|].
  destruct (isspace c').
  - constructor; assumption.
  - now apply cons_first_ok.
Qed.

Variable Q : Z -> Prop.
Hypothesis token_ok :
  forall tok n, all_chars p tok = true -> py_int tok = Ok n -> Q n.

Lemma segment_rule_forall segment :
  all_chars p segment = true -> Forall Q (Reference.segment_rule segment).
Proof.
  intros H. unfold Reference.segment_rule.
  destruct (is_empty (strip segment)); [constructor|].
  pose proof (split_ws_ok _ (all_chars_strip _ H)) as Htoks.
  destruct (split_ws (strip segment)) as [|tok toks]; [constructor|].
  inversion Htoks; subst.
  destruct (py_int tok) as [n|e] eqn:E; constructor; eauto.
Qed.

Lemma line_rule_forall line :
  all_chars p line = true -> Forall Q (Reference.line_rule line).
Proof.
  intros H. unfold Reference.line_rule.
  destruct (is_empty line); [constructor|].
  destruct (startswith "#"%char line); [constructor|].
  apply Forall_flat_map.
  eapply Forall_impl; [|apply split_char_ok, all_chars_truncate, H].
  intros segment. apply segment_rule_forall.
Qed.

Lemma reference_parse_forall text :
  all_chars p text = true -> Forall Q (Reference.parse text).
Proof.
  intros H. unfold Reference.parse. apply Forall_flat_map.
  apply Forall_map.
  eapply Forall_impl; [|apply splitlines_ok, H].
  intros line Hl. simpl. now apply line_rule_forall, all_chars_strip.
Qed.

End CharacterFacts.

Section LiteralFacts.



Lemma scan_digits_counts_none s :
  all_chars not_digit s = true ->
  forall prev_us acc digits v n,
    scan_digits prev_us acc digits s = Some (v, n) -> n = digits.
Proof.
  induction s as [|c rest IH]; simpl; intros Hs prev_us acc digits v n H.
  - destruct prev_us; congruence.
  - apply andb_prop in Hs as [Hc Hrest]. unfold not_digit in Hc.
    destruct (Ascii.eqb c underscore).
    + destruct prev_us; [discriminate|]. eauto.
    + destruct (is_digit c); discriminate.
Qed.

Lemma split_sign_chars q s :
  all_chars q s = true -> all_chars q (snd (split_sign s)) = true.
Proof.
  destruct s as [|c rest]; simpl; [trivial|].
  intros H. destruct (Ascii.eqb c "-"%char); simpl.
  - now apply andb_prop in H.
  - destruct (Ascii.eqb c "+"%char); simpl; [now apply andb_prop in H|exact H].
Qed.



Lemma py_int_without_digit tok n :
  all_chars not_digit tok = true -> py_int tok = Ok n -> False.
Proof.
  intros H. apply all_chars_int_strip, split_sign_chars in H. unfold py_int.
  destruct (split_sign (int_strip tok)) as [sign body]. simpl in H.
  destruct (startswith underscore body); [discriminate|].
  destruct (scan_digits false 0 0 body) as [[v d]|] eqn:E; [|discriminate].
  apply (scan_digits_counts_none _ H) in E. subst d. discriminate.
Qed.

End LiteralFacts.

(** C2. [parse_input] never raises: every input gives a list of integers,
    and the empty input, a comment-only input and any input without a
    digit give the empty list. *)
Theorem C2_parse_is_total :
  (forall input_str, exists fills, parse_input input_str = Ok fills)
  /\ parse_input "" = Ok []
  /\ parse_input comment_only_input = Ok []
  /\ (forall input_str,
        all_chars not_digit input_str = true -> parse_input input_str = Ok []).
Proof.
  split; [intros s; eexists; apply parse_input_refines|].
  split; [reflexivity|]. split; [reflexivity|].
  intros s H. rewrite parse_input_refines. f_equal.
  pose proof (reference_parse_forall not_digit (fun _ => False)
                py_int_without_digit s H) as Hall.
  destruct (Reference.parse s) as [|n ns]; [reflexivity|].
  now inversion Hall.
Qed.

Lemma C2_parse_is_total_witness :
  all_chars not_digit "abc, # x" = true /\ parse_input "abc, # x" = Ok [].
Proof.
  split; [reflexivity|].
  apply (proj2 (proj2 (proj2 C2_parse_is_total))). reflexivity.
Defined.




(** ** The metadata lookup *)

Create HintDb raises.

Section LookupFacts.

Local Open Scope py_scope.

Lemma bind_only_exceptions {A B : Type} (m : py_result A)
    (k : A -> py_result B) :
  only_exceptions m -> (forall a, only_exceptions (k a)) ->
  only_exceptions (m' <- m ;; k m').
Proof. destruct m as [a|e]; simpl; auto. Qed.

Lemma py_get_only v key default : only_exceptions (py_get v key default).
Proof. destruct v; simpl; trivial. now destruct (lookup key bindings). Qed.

Lemma py_len_only v : only_exceptions (py_len v).
Proof. now destruct v. Qed.

Lemma index0_only {A : Type} (xs : list A) : only_exceptions (index0 xs).
Proof. now destruct xs. Qed.

Lemma py_item0_only v : only_exceptions (py_item0 v).
Proof. destruct v; simpl; trivial; [now destruct s | apply index0_only]. Qed.

Lemma py_slice4_only v : only_exceptions (py_slice4 v).
Proof. now destruct v. Qed.

Lemma year_of_only v : only_exceptions (year_of v).
Proof. unfold year_of. destruct (truthy v); [apply py_slice4_only|exact I]. Qed.

Lemma py_upper_only v : only_exceptions (py_upper v).
Proof. now destruct v. Qed.

Hint Resolve py_get_only py_len_only py_item0_only py_slice4_only
  year_of_only py_upper_only : raises.

Lemma type_mentions_only fill_type needle :
  only_exceptions (type_mentions fill_type needle).
Proof.
  unfold type_mentions. destruct (truthy fill_type); [|exact I].
  apply bind_only_exceptions; [auto with raises|intros u; exact I].
Qed.

Hint Resolve type_mentions_only : raises.

Lemma collision_system_only fill_type :
  only_exceptions (collision_system fill_type).
Proof.
  unfold collision_system.
  apply bind_only_exceptions; [auto with raises|intros ion].
  apply bind_only_exceptions;
    [destruct ion; [exact I|auto with raises]|intros pbpb].
  destruct pbpb; [exact I|].
  apply bind_only_exceptions; [auto with raises|intros proton].
  now destruct proton.
Qed.

Hint Resolve collision_system_only : raises.

Lemma metadata_of_response_only resp_json :
  only_exceptions (metadata_of_response resp_json).
Proof.
  unfold metadata_of_response.
  apply bind_only_exceptions; [auto with raises|intros data_list].
  apply bind_only_exceptions.
  - destruct (truthy data_list); [|exact I].
    apply bind_only_exceptions; [auto with raises|intros n; exact I].
  - intros [|]; [|exact I].
    repeat (apply bind_only_exceptions; [auto with raises|intros ?]).
    exact I.
Qed.

Lemma get_fill_metadata_caught api fill_number e :
  api fill_number = Raise e -> is_Exception e = true ->
  get_fill_metadata api fill_number
  = ([QueryFills fill_number;
      PrintExn ("Warning: Could not fetch metadata for fill "
                ++ str_int fill_number ++ ": ") e], Ok None).
Proof.
  intros Hapi He. unfold get_fill_metadata. rewrite Hapi. simpl.
  now rewrite He.
Qed.

Lemma get_fill_metadata_answered api fill_number resp_json :
  api fill_number = Ok resp_json ->
  get_fill_metadata api fill_number
  = match metadata_of_response resp_json with
    | Ok meta => ([QueryFills fill_number], Ok meta)
    | Raise e =>
        ([QueryFills fill_number;
          PrintExn ("Warning: Could not fetch metadata for fill "
                    ++ str_int fill_number ++ ": ") e], Ok None)
    end.
Proof.
  intros Hapi. unfold get_fill_metadata. rewrite Hapi. simpl.
  pose proof (metadata_of_response_only resp_json) as Honly.
  destruct (metadata_of_response resp_json) as [meta|e]; simpl in *.
  - reflexivity.
  - now rewrite Honly.
Qed.

Lemma no_entry_gives_none resp_json data_list :
  py_get resp_json "data" PNone = Ok data_list ->
  truthy data_list = false ->
  metadata_of_response resp_json = Ok None.
Proof.
  intros Hget Hempty. unfold metadata_of_response.
  rewrite Hget. simpl. now rewrite Hempty.
Qed.

Lemma py_get_dict fields key default :
  py_get (PDict fields) key default = Ok (attribute_or fields key default).
Proof. unfold attribute_or. simpl. now destruct (lookup key fields). Qed.

Lemma year_of_usable start_time :
  negb (truthy start_time) || is_sequence start_time = true ->
  exists year, year_of start_time = Ok year.
Proof.
  unfold year_of. destruct (truthy start_time); [|now eexists].
  destruct start_time; simpl; try discriminate; now eexists.
Qed.

Lemma year_of_unusable start_time :
  negb (truthy start_time) || is_sequence start_time = false ->
  exists e, year_of start_time = Raise e.
Proof.
  unfold year_of. destruct (truthy start_time); [|discriminate].
  destruct start_time; simpl; try discriminate; now eexists.
Qed.

Lemma collision_system_usable fill_type :
  negb (truthy fill_type) || is_text fill_type = true ->
  exists system, collision_system fill_type = Ok system.
Proof.
  unfold collision_system, type_mentions.
  destruct (truthy fill_type); [|now eexists].
  destruct fill_type; simpl; try discriminate. intros _.
  destruct (contains "ION" (upper s)); simpl; [now eexists|].
  destruct (contains "PBPB" (upper s)); simpl; [now eexists|].
  destruct (contains "PROTON" (upper s)); now eexists.
Qed.

Lemma collision_system_unusable fill_type :
  negb (truthy fill_type) || is_text fill_type = false ->
  exists e, collision_system fill_type = Raise e.
Proof.
  unfold collision_system, type_mentions.
  destruct (truthy fill_type); [|discriminate].
  destruct fill_type; simpl; try discriminate; now eexists.
Qed.

(** What lines 29-47 make of an entry. *)
Lemma metadata_of_entry fields entry others :
  attribute_or fields "data" PNone = PList (entry :: others) ->
  (usable_entry entry = true ->
   exists m, metadata_of_response (PDict fields) = Ok (Some m))
  /\ (usable_entry entry = false ->
      exists e, metadata_of_response (PDict fields) = Raise e).
Proof.
  intros Hdata. unfold metadata_of_response.
  rewrite py_get_dict, Hdata.
  cbn [bind truthy py_len List.length py_item0 index0].
  replace (0 <? Z.of_nat (S (List.length others))) with true
    by (symmetry; apply Z.ltb_lt; lia).
  unfold usable_entry.
  destruct entry as [| | | | | |efields];
    try (split; [discriminate|intros _; now eexists]).
  rewrite py_get_dict. cbn [bind].
  destruct (attribute_or efields "attributes" (PDict []))
    as [| | | | | |afields];
    try (split; [discriminate|intros _; now eexists]).
  rewrite !py_get_dict. cbn [bind]. unfold usable_attributes.
  split; intros H.
  - apply andb_prop in H as [Htype Hstart].
    destruct (year_of_usable _ Hstart) as [year ->].
    destruct (collision_system_usable _ Htype) as [system ->].
    now eexists.
  - apply andb_false_iff in H as [Htype | Hstart].
    + destruct (year_of (attribute_or afields "start_time" (PStr "")));
        [|now eexists].
      destruct (collision_system_unusable _ Htype) as [e ->].
      now eexists.
    + destruct (year_of_unusable _ Hstart) as [e ->]. now eexists.
Qed.

(** Without an entry to read there is no metadata. *)
Lemma metadata_without_entry resp_json :
  first_entry resp_json = None ->
  metadata_of_response resp_json = Ok None
  \/ exists e, metadata_of_response resp_json = Raise e.
Proof.
  unfold first_entry, metadata_of_response.
  destruct resp_json as [| | | | | |fields];
    try (intros _; right; now eexists).
  rewrite py_get_dict.
  destruct (attribute_or fields "data" PNone)
    as [|[|]|z|bits|[|c rest]|[|entry others]|[|binding bindings]];
    try discriminate; intros _; cbn [bind truthy is_empty negb py_len];
    try (now left); try (right; now eexists).
  - destruct (negb (z =? 0)); [right|left]; now eexists.
  - destruct (negb (N.land bits (2 ^ 63 - 1) =? 0)%N); [right|left];
      now eexists.
  - cbn [bind].
    destruct (0 <? Z.of_nat
                     (List.length
                        (nodup string_dec (map fst (binding :: bindings)))));
      [right|left]; now eexists.
Qed.

Lemma usable_gives_metadata resp_json :
  usable_response resp_json = true ->
  exists m, metadata_of_response resp_json = Ok (Some m).
Proof.
  unfold usable_response, first_entry.
  destruct resp_json as [| | | | | |fields]; try discriminate.
  destruct (attribute_or fields "data" PNone)
    as [| | | | |[|entry others]|] eqn:Hdata; try discriminate.
  apply (metadata_of_entry _ _ _ Hdata).
Qed.

Lemma unusable_gives_none resp_json :
  usable_response resp_json = false ->
  metadata_of_response resp_json = Ok None
  \/ exists e, metadata_of_response resp_json = Raise e.
Proof.
  unfold usable_response.
  destruct (first_entry resp_json) as [entry|] eqn:Hentry;
    [|intros _; now apply metadata_without_entry].
  intros Hbad. right. revert Hentry. unfold first_entry.
  destruct resp_json as [| | | | | |fields]; try discriminate.
  destruct (attribute_or fields "data" PNone)
    as [| | | | |[|entry' others]|] eqn:Hdata; try discriminate.
  intros [= ->]. now apply (metadata_of_entry _ _ _ Hdata).
Qed.

(** A failed lookup prints at most a warning and answers [None]. *)
Lemma failed_lookup api fill_number :
  lookup_failure (api fill_number) ->
  exists tr, get_fill_metadata api fill_number = (tr, Ok None)
             /\ screenshots tr = [] /\ scripts tr = [].
Proof.
  intros [e Hapi He | resp_json Hapi Hbad
         | resp_json data_list Hapi Hget Hempty].
  - rewrite (get_fill_metadata_caught _ _ _ Hapi He). now eexists.
  - rewrite (get_fill_metadata_answered _ _ _ Hapi).
    destruct (unusable_gives_none _ Hbad) as [-> | [e ->]]; now eexists.
  - rewrite (get_fill_metadata_answered _ _ _ Hapi).
    rewrite (no_entry_gives_none _ _ Hget Hempty). now eexists.
Qed.

(** A lookup that answers [None] is a failed one. *)
Lemma none_is_failed_lookup api fill_number :
  result (get_fill_metadata api fill_number) = Ok None ->
  lookup_failure (api fill_number).
Proof.
  destruct (api fill_number) as [resp_json|e] eqn:Hapi.
  - rewrite (get_fill_metadata_answered _ _ _ Hapi). intros H.
    apply unusable_response with (resp_json := resp_json); [reflexivity|].
    destruct (usable_response resp_json) eqn:Husable; [|reflexivity].
    destruct (usable_gives_metadata _ Husable) as [m Hm].
    rewrite Hm in H. discriminate H.
  - unfold get_fill_metadata. rewrite Hapi. simpl.
    destruct (is_Exception e) eqn:He; [|discriminate].
    intros _. now apply transport_error with (e := e).
Qed.

Lemma take_length n s :
  String.length (take n s) = Nat.min n (String.length s).
Proof.
  revert s. induction n as [|n IH]; intros [|c rest]; simpl; auto.
Qed.

Lemma year_of_cases start_time year :
  year_of start_time = Ok year ->
  (truthy start_time = false /\ year = PStr "UNKNOWN")
  \/ (exists s, start_time = PStr s /\ s <> ""
                /\ year = PStr (take 4 s))
  \/ (exists items, start_time = PList items /\ items <> []
                    /\ year = PList (firstn 4 items)).
Proof.
  unfold year_of. destruct (truthy start_time) eqn:T.
  - destruct start_time; simpl; try discriminate; intros [= <-].
    + right; left. exists s. repeat split.
      intros ->. discriminate.
    + right; right. exists items. repeat split.
      intros ->. discriminate.
  - intros [= <-]. now left.
Qed.

Lemma metadata_year_source resp_json m :
  metadata_of_response resp_json = Ok (Some m) ->
  exists start_time,
    start_time_of resp_json = Ok start_time
    /\ year_of start_time = Ok (meta_year m).
Proof.
  unfold metadata_of_response, start_time_of. intros H.
  step H. step H.
  match type of H with (if ?b then _ else _) = _ => destruct b end;
    [|discriminate H].
  repeat step H. injection H as <-.
  match goal with
  | E : py_get _ "start_time" _ = Ok ?st |- _ => exists st
  end.
  simpl.
  repeat match goal with
         | E : ?t = Ok _ |- context [?t] => rewrite E; simpl
         end.
  now split.
Qed.

End LookupFacts.

(** C8 fails as stated: a start time of two characters gives a year of two
    characters. *)
Lemma C8_counterexample :
  (exists m, metadata_of_response short_start_response = Ok (Some m)
             /\ meta_year m = PStr "20")
  /\ ~ (forall resp_json m,
          metadata_of_response resp_json = Ok (Some m) ->
          is_year_shape (meta_year m) = true).
Proof.
  split; [eexists; split; reflexivity|].
  intros H.
  specialize (H short_start_response _ eq_refl). discriminate H.
Qed.

(** The values Python takes for false: [None], [False], the int 0, a float
    zero of either sign, the empty string, the empty list and the empty
    dict. *)
Lemma falsy_values v :
  truthy v = false <->
  v = PNone \/ v = PBool false \/ v = PInt 0
  \/ (exists bits, v = PFloat bits /\ N.land bits (2 ^ 63 - 1) = 0%N)
  \/ v = PStr "" \/ v = PList [] \/ v = PDict [].
Proof.
  split.
  - destruct v as [|b|z|bits|s|items|bindings]; simpl; intros H.
    + now left.
    + subst b. now right; left.
    + apply negb_false_iff, Z.eqb_eq in H. subst z. now right; right; left.
    + apply negb_false_iff, N.eqb_eq in H.
      right; right; right; left. now exists bits.
    + destruct s; [|discriminate]. now do 4 right; left.
    + destruct items; [|discriminate]. now do 5 right; left.
    + destruct bindings; [|discriminate]. now do 6 right.
  - intros [->|[->|[->|[(bits & -> & H)|[->|[->| ->]]]]]]; try reflexivity.
    unfold truthy. now rewrite H.
Qed.

(** C8, amended. When metadata is obtained, its year is the sentinel
    UNKNOWN when the start time is absent or a value Python takes for
    false ([None], [False], a zero, an empty string, list or dict);
    otherwise the start time is a non-empty string or list and the year is
    its first four items: of a string its first four characters, four of
    them exactly when the string has at least four, and of a list its
    first four elements.  A start time of any other kind gives no
    metadata. *)
Theorem C8_year_is_prefix_of_start_time :
  forall resp_json m,
    metadata_of_response resp_json = Ok (Some m) ->
    exists start_time,
      start_time_of resp_json = Ok start_time
      /\ ((truthy start_time = false /\ meta_year m = PStr "UNKNOWN")
          \/ (exists s, start_time = PStr s /\ s <> ""
                /\ meta_year m = PStr (take 4 s)
                /\ String.length (take 4 s) = Nat.min 4 (String.length s))
          \/ (exists items, start_time = PList items /\ items <> []
                /\ meta_year m = PList (firstn 4 items))).
Proof.
  intros resp_json m H.
  destruct (metadata_year_source _ _ H) as (start_time & Hst & Hyear).
  exists start_time. split; [assumption|].
  destruct (year_of_cases _ _ Hyear) as [?|[(s & ? & ? & ?)|?]]; auto.
  right; left. exists s. repeat split; auto using take_length.
Qed.

Lemma C8_year_is_prefix_of_start_time_witness :
  exists start_time,
    start_time_of usual_response = Ok start_time
    /\ ((truthy start_time = false /\ PStr "2024" = PStr "UNKNOWN")
        \/ (exists s, start_time = PStr s /\ s <> ""
              /\ PStr "2024" = PStr (take 4 s)
              /\ String.length (take 4 s) = Nat.min 4 (String.length s))
        \/ (exists items, start_time = PList items /\ items <> []
              /\ PStr "2024" = PList (firstn 4 items))).
Proof.
  exact (C8_year_is_prefix_of_start_time usual_response
           {| meta_bunches := PInt 2400; meta_system := "pp";
              meta_type := PStr "PROTONS"; meta_year := PStr "2024" |}
           eq_refl).
Defined.

(** ** The orchestrator *)

Section OrchestratorFacts.

Variable str_compound : pyval -> string.

Local Arguments url_of : simpl never.
Local Arguments script_of : simpl never.
Local Arguments title_of : simpl never.
Local Arguments meta_label : simpl never.

Local Open Scope io_scope.

Lemma string_app_assoc (a b c : string) : (a ++ b) ++ c = a ++ b ++ c.
Proof. induction a as [|x a IH]; simpl; [reflexivity|now rewrite IH]. Qed.

Lemma screenshots_app tr tr' :
  screenshots (tr ++ tr')%list = (screenshots tr ++ screenshots tr')%list.
Proof.
  induction tr as [|ev tr IH]; simpl; [reflexivity|].
  destruct ev; simpl; now rewrite IH.
Qed.

Lemma scripts_app tr tr' :
  scripts (tr ++ tr')%list = (scripts tr ++ scripts tr')%list.
Proof.
  induction tr as [|ev tr IH]; simpl; [reflexivity|].
  destruct ev; simpl; now rewrite IH.
Qed.

Lemma in_screenshots path tr :
  In (SaveScreenshot path) tr -> In path (screenshots tr).
Proof.
  induction tr as [|ev tr IH]; simpl; [trivial|].
  intros [-> | H]; [now left|].
  destruct ev; simpl; auto.
Qed.

Lemma filename_without_metadata fill_number :
  filename_of str_compound fill_number None
  = "fills/fill_" ++ str_int fill_number ++ ".png".
Proof. reflexivity. Qed.

Lemma filename_with_metadata fill_number m :
  filename_of str_compound fill_number (Some m)
  = "fills/fill_" ++ str_int fill_number ++ "_" ++ meta_system m ++ "_"
    ++ py_str str_compound (meta_bunches m) ++ "b_"
    ++ py_str str_compound (meta_year m) ++ ".png".
Proof.
  unfold filename_of, filename_suffix_of, os_path_join, output_dir.
  simpl. do 11 f_equal.
  repeat (rewrite string_app_assoc; simpl). reflexivity.
Qed.

Lemma get_fill_metadata_quiet api fill_number :
  screenshots (trace (get_fill_metadata api fill_number)) = []
  /\ scripts (trace (get_fill_metadata api fill_number)) = [].
Proof.
  unfold get_fill_metadata. destruct (api fill_number) as [resp_json|e]; simpl.
  - destruct (metadata_of_response resp_json) as [meta|e]; simpl;
      [now split|].
    destruct (is_Exception e); now split.
  - destruct (is_Exception e); now split.
Qed.

Lemma process_fill_screenshot w k fill_number :
  screenshots (trace (process_fill str_compound w k fill_number)) = []
  \/ screenshots (trace (process_fill str_compound w k fill_number))
     = [filename_of str_compound fill_number
          (obtained (oms w k) fill_number)].
Proof.
  unfold process_fill, obtained.
  destruct (get_fill_metadata_quiet (oms w k) fill_number) as [Hq _].
  destruct (get_fill_metadata (oms w k) fill_number) as [tr0 [meta|e]];
    simpl in Hq; [|left; run; cbn [screenshots]; assumption].
  split_outcomes; cbn [screenshots]; rewrite ?screenshots_app, ?Hq;
    cbn [screenshots app]; auto.
Qed.

Lemma get_fill_metadata_returns api fill_number :
  (forall e, api fill_number = Raise e -> is_Exception e = true) ->
  exists tr meta, get_fill_metadata api fill_number = (tr, Ok meta).
Proof.
  intros Hsoft. destruct (api fill_number) as [resp_json|e] eqn:Hapi.
  - rewrite (get_fill_metadata_answered _ _ _ Hapi).
    destruct (metadata_of_response resp_json); eauto.
  - rewrite (get_fill_metadata_caught _ _ _ Hapi (Hsoft e eq_refl)). eauto.
Qed.

(** Without metadata the turn goes on: page, wait, screenshot. *)
Lemma process_fill_unlabeled w k fill_number tr0 :
  get_fill_metadata (oms w k) fill_number = (tr0, Ok None) ->
  navigate_fails w k = None -> sleep_fails w k = None ->
  screenshot_fails w k = None ->
  process_fill str_compound w k fill_number
  = ((Print (nl ++ "Processing Fill " ++ str_int fill_number ++ "...") :: tr0)
     ++ [DriverGet (url_of fill_number);
         Print "Waiting 5 seconds for plots to render...";
         Sleep 5;
         SaveScreenshot ("fills/fill_" ++ str_int fill_number ++ ".png");
         Print ("Saved screenshot: fills/fill_" ++ str_int fill_number
                ++ ".png")], Ok tt)%list.
Proof.
  intros Hmeta Hnav Hsleep Hshot. unfold process_fill.
  rewrite Hmeta, Hnav, Hsleep, Hshot. reflexivity.
Qed.

Lemma process_fill_completes w k fill_number :
  navigate_fails w k = None -> sleep_fails w k = None ->
  screenshot_fails w k = None ->
  (forall e, oms w k fill_number = Raise e -> is_Exception e = true) ->
  (forall e, script_fails w k = Some e -> is_Exception e = true) ->
  result (process_fill str_compound w k fill_number) = Ok tt
  /\ screenshots (trace (process_fill str_compound w k fill_number))
     = [filename_of str_compound fill_number
          (obtained (oms w k) fill_number)].
Proof.
  intros Hnav Hsleep Hshot Hlookup Hscript.
  destruct (get_fill_metadata_returns _ _ Hlookup) as (tr0 & meta & Hmeta).
  destruct (get_fill_metadata_quiet (oms w k) fill_number) as [Hq _].
  unfold process_fill, obtained.
  rewrite Hmeta in *. rewrite Hnav, Hsleep, Hshot. simpl in Hq.
  destruct meta as [m|]; run.
  - destruct (script_fails w k) as [e|] eqn:Hs; run.
    + rewrite (Hscript e eq_refl). run.
      rewrite !screenshots_app, Hq. now split.
    + rewrite !screenshots_app, Hq. now split.
  - rewrite !screenshots_app, Hq. now split.
Qed.

Lemma process_fill_hard_error w k fill_number e :
  navigate_fails w k = Some e \/ screenshot_fails w k = Some e ->
  exists e', result (process_fill str_compound w k fill_number) = Raise e'.
Proof.
  intros Hhard. unfold process_fill.
  destruct (get_fill_metadata (oms w k) fill_number) as [tr0 [meta|e0]];
    [|run; eauto].
  destruct Hhard as [-> | ->]; split_outcomes; eauto.
Qed.

(** With metadata the turn goes on as well: the script is handed over, and
    the screenshot carries the label in its name. *)
Lemma process_fill_labeled w k fill_number tr0 m :
  get_fill_metadata (oms w k) fill_number = (tr0, Ok (Some m)) ->
  screenshots tr0 = [] -> scripts tr0 = [] ->
  navigate_fails w k = None -> sleep_fails w k = None ->
  screenshot_fails w k = None ->
  (forall e, script_fails w k = Some e -> is_Exception e = true) ->
  result (process_fill str_compound w k fill_number) = Ok tt
  /\ screenshots (trace (process_fill str_compound w k fill_number))
     = [filename_of str_compound fill_number (Some m)]
  /\ scripts (trace (process_fill str_compound w k fill_number))
     = [script_of (title_of str_compound fill_number m)].
Proof.
  intros Hmeta Hshots Hscripts Hnav Hsleep Hshot Hscript.
  unfold process_fill. rewrite Hmeta, Hnav, Hsleep, Hshot.
  destruct (script_fails w k) as [e|] eqn:Hs; run.
  - rewrite (Hscript e eq_refl). run.
    cbn [screenshots scripts].
    rewrite !screenshots_app, !scripts_app, Hshots, Hscripts.
    repeat split.
  - cbn [screenshots scripts].
    rewrite !screenshots_app, !scripts_app, Hshots, Hscripts.
    repeat split.
Qed.

(** C3, amended. The lookup answers None, without raising, exactly when
    it fails: the service call raises an error of the Exception hierarchy,
    the response holds no entry, or the response is none the code can use.
    The turn of that fill then goes on with the defaults: no script is run
    and the screenshot goes to fills/fill_<id>.png.  Missing fields are no
    failure: a usable response, also one whose entry lacks attributes,
    gives metadata, the script is handed to the browser and the screenshot
    goes to the labelled file; an entry without attributes gives the
    default metadata. *)
Theorem C3_lookup_failure_degrades :
  forall (w : env) (k : nat) (fill_number : Z),
    (lookup_failure (oms w k fill_number) ->
     result (get_fill_metadata (oms w k) fill_number) = Ok None
     /\ (navigate_fails w k = None -> sleep_fails w k = None ->
         screenshot_fails w k = None ->
         result (process_fill str_compound w k fill_number) = Ok tt
         /\ screenshots (trace (process_fill str_compound w k fill_number))
            = ["fills/fill_" ++ str_int fill_number ++ ".png"]
         /\ scripts (trace (process_fill str_compound w k fill_number))
            = []))
    /\ (result (get_fill_metadata (oms w k) fill_number) = Ok None ->
        lookup_failure (oms w k fill_number))
    /\ (forall resp_json,
          oms w k fill_number = Ok resp_json ->
          usable_response resp_json = true ->
          exists m,
            metadata_of_response resp_json = Ok (Some m)
            /\ result (get_fill_metadata (oms w k) fill_number)
               = Ok (Some m)
            /\ (navigate_fails w k = None -> sleep_fails w k = None ->
                screenshot_fails w k = None ->
                (forall e, script_fails w k = Some e ->
                           is_Exception e = true) ->
                result (process_fill str_compound w k fill_number) = Ok tt
                /\ screenshots
                     (trace (process_fill str_compound w k fill_number))
                   = [filename_of str_compound fill_number (Some m)]
                /\ scripts
                     (trace (process_fill str_compound w k fill_number))
                   = [script_of (title_of str_compound fill_number m)]))
    /\ (forall resp_json fields,
          oms w k fill_number = Ok resp_json ->
          first_entry resp_json = Some (PDict fields) ->
          lookup "attributes" fields = None ->
          usable_response resp_json = true
          /\ result (get_fill_metadata (oms w k) fill_number)
             = Ok (Some default_metadata)).
Proof.
  intros w k fill_number. split; [|split; [|split]].
  - intros Hfail.
    destruct (failed_lookup _ _ Hfail) as (tr0 & Hmeta & Hshots & Hscripts).
    split; [now rewrite Hmeta|].
    intros Hnav Hsleep Hshot.
    rewrite (process_fill_unlabeled _ _ _ _ Hmeta Hnav Hsleep Hshot).
    cbn [trace result fst snd app]. cbn [screenshots scripts].
    rewrite screenshots_app, scripts_app, Hshots, Hscripts.
    repeat split.
  - apply none_is_failed_lookup.
  - intros resp_json Hapi Husable.
    destruct (usable_gives_metadata _ Husable) as [m Hm].
    pose proof (get_fill_metadata_answered _ _ _ Hapi) as Hmeta.
    rewrite Hm in Hmeta.
    exists m. split; [assumption|]. split; [now rewrite Hmeta|].
    intros Hnav Hsleep Hshot Hscript.
    now apply (process_fill_labeled w k fill_number _ m Hmeta).
  - intros resp_json fields Hapi Hentry Hnone.
    assert (Husable : usable_response resp_json = true).
    { unfold usable_response, usable_entry, attribute_or.
      now rewrite Hentry, Hnone. }
    split; [assumption|].
    rewrite (get_fill_metadata_answered _ _ _ Hapi).
    revert Hentry. unfold first_entry.
    destruct resp_json as [| | | | | |rfields]; try discriminate.
    destruct (attribute_or rfields "data" PNone)
      as [| | | | |[|entry others]|] eqn:Hdata; try discriminate.
    intros [= ->]. unfold metadata_of_response.
    rewrite py_get_dict, Hdata.
    cbn [bind truthy py_len List.length py_item0 index0].
    replace (0 <? Z.of_nat (S (List.length others))) with true
      by (symmetry; apply Z.ltb_lt; lia).
    rewrite py_get_dict. unfold attribute_or at 1. rewrite Hnone.
    reflexivity.
Qed.

Lemma process_fills_cut w pre :
  forall k0 fill_number post e,
    result (process_fill str_compound w (k0 + List.length pre) fill_number)
    = Raise e ->
    process_fills str_compound w k0 (pre ++ fill_number :: post)%list
    = process_fills str_compound w k0 (pre ++ [fill_number])%list.
Proof.
  induction pre as [|g pre IH]; intros k0 fill_number post e Hraise.
  - simpl in *. rewrite Nat.add_0_r in Hraise.
    destruct (process_fill str_compound w k0 fill_number) as [tr r].
    simpl in Hraise. subst r. reflexivity.
  - cbn [app process_fills].
    rewrite (IH (S k0) fill_number post e); [reflexivity|].
    simpl in Hraise. now rewrite Nat.add_succ_r in Hraise.
Qed.

Lemma process_fills_bound w fill_numbers :
  forall k,
    (List.length
       (screenshots (trace (process_fills str_compound w k fill_numbers)))
     <= List.length fill_numbers)%nat.
Proof.
  induction fill_numbers as [|g rest IH]; intros k; [simpl; lia|].
  cbn [process_fills].
  pose proof (process_fill_screenshot w k g) as Hone.
  specialize (IH (S k)).
  destruct (process_fill str_compound w k g) as [tr [[]|e]];
    destruct (process_fills str_compound w (S k) rest) as [tr' r'];
    run; cbn [trace fst] in *; rewrite ?screenshots_app, ?length_app;
    destruct Hone as [-> | ->]; simpl; lia.
Qed.

Lemma process_fills_complete w fill_numbers :
  (forall j, navigate_fails w j = None) ->
  (forall j, sleep_fails w j = None) ->
  (forall j, screenshot_fails w j = None) ->
  (forall j g e, oms w j g = Raise e -> is_Exception e = true) ->
  (forall j e, script_fails w j = Some e -> is_Exception e = true) ->
  forall k,
    result (process_fills str_compound w k fill_numbers) = Ok tt
    /\ screenshots (trace (process_fills str_compound w k fill_numbers))
       = expected_files str_compound w k fill_numbers.
Proof.
  intros Hnav Hsleep Hshot Hlookup Hscript.
  induction fill_numbers as [|g rest IH]; intros k; [now split|].
  cbn [process_fills expected_files].
  destruct (process_fill_completes w k g (Hnav k) (Hsleep k) (Hshot k)
              (Hlookup k g) (Hscript k)) as [Hr Hs].
  destruct (IH (S k)) as [Hr' Hs'].
  destruct (process_fill str_compound w k g) as [tr r].
  destruct (process_fills str_compound w (S k) rest) as [tr' r'].
  cbn [trace result fst snd] in *. subst r r'. run.
  rewrite screenshots_app, Hs, Hs'. now split.
Qed.

Lemma session_ends_with_quit w fill_numbers :
  exists tr, trace (session str_compound w fill_numbers) = (tr ++ [DriverQuit])%list.
Proof.
  unfold session.
  destruct (io_catch (session_body str_compound w fill_numbers) is_Exception
              (fun e => print_exn "An error occurred: " e)) as [tr r].
  exists (tr ++ [Print (nl ++ "Closing browser...")])%list.
  destruct (quit_fails w); run; now rewrite <- app_assoc.
Qed.

Lemma session_screenshots w fill_numbers :
  screenshots (trace (session str_compound w fill_numbers)) = []
  \/ screenshots (trace (session str_compound w fill_numbers))
     = screenshots (trace (process_fills str_compound w 0 fill_numbers)).
Proof.
  unfold session, session_body.
  destruct (process_fills str_compound w 0 fill_numbers) as [tr r].
  destruct (landing_fails w), (login_input w), r as [[]|], (quit_fails w);
    split_outcomes; rewrite ?screenshots_app; cbn [screenshots app];
    rewrite ?app_nil_r; auto.
Qed.

Lemma download_plots_screenshots w fill_numbers :
  screenshots (trace (download_plots str_compound w fill_numbers)) = []
  \/ screenshots (trace (download_plots str_compound w fill_numbers))
     = screenshots (trace (process_fills str_compound w 0 fill_numbers)).
Proof.
  unfold download_plots.
  pose proof (session_screenshots w fill_numbers) as Hs.
  destruct (session str_compound w fill_numbers) as [trs rs].
  cbn [trace fst] in Hs.
  destruct (dir_exists w), (makedirs_fails w), (install_fails w),
    (launch_fails w); split_outcomes;
    rewrite ?screenshots_app; cbn [screenshots app]; auto.
Qed.

Lemma expected_files_length w fill_numbers :
  forall k,
    List.length (expected_files str_compound w k fill_numbers)
    = List.length fill_numbers.
Proof. induction fill_numbers; intros k; simpl; auto. Qed.

Lemma download_plots_complete w fill_numbers :
  starts w -> no_hard_error w -> soft_errors_only w ->
  screenshots (trace (download_plots str_compound w fill_numbers))
  = expected_files str_compound w 0 fill_numbers.
Proof.
  intros (Hdir & Hinst & Hlaunch & Hland & line & Hlogin) Hhard [Hl Hs].
  destruct (process_fills_complete w fill_numbers
              (fun j => proj1 (Hhard j))
              (fun j => proj1 (proj2 (Hhard j)))
              (fun j => proj2 (proj2 (Hhard j))) Hl Hs 0%nat) as [Hr Hshots].
  rewrite <- Hshots.
  unfold download_plots, session, session_body.
  rewrite Hinst, Hlaunch, Hland, Hlogin.
  destruct (process_fills str_compound w 0 fill_numbers) as [tr r].
  cbn [result snd trace fst] in *. subst r.
  destruct Hdir as [-> | Hmk].
  - destruct (quit_fails w); run; rewrite ?screenshots_app;
      cbn [screenshots app]; now rewrite ?app_nil_r.
  - rewrite Hmk.
    destruct (dir_exists w), (quit_fails w); run; rewrite ?screenshots_app;
      cbn [screenshots app]; now rewrite ?app_nil_r.
Qed.

(** C4. The file a fill is saved to is fills/fill_<id>.png without
    metadata and fills/fill_<id>_<system>_<bunches>b_<year>.png with it: a
    function of the identifier, the system, the bunches and the year alone;
    every screenshot of a turn of the loop goes to that path, and writing a
    path again replaces what it held. *)
Theorem C4_output_path_is_determined :
  (forall fill_number,
      filename_of str_compound fill_number None
      = "fills/fill_" ++ str_int fill_number ++ ".png")
  /\ (forall fill_number m,
        filename_of str_compound fill_number (Some m)
        = "fills/fill_" ++ str_int fill_number ++ "_" ++ meta_system m ++ "_"
          ++ py_str str_compound (meta_bunches m) ++ "b_"
          ++ py_str str_compound (meta_year m) ++ ".png")
  /\ (forall w k fill_number path,
        In (SaveScreenshot path)
           (trace (process_fill str_compound w k fill_number)) ->
        path = filename_of str_compound fill_number
                 (obtained (oms w k) fill_number))
  /\ filename_of str_compound 11316 (Some example_metadata)
     = "fills/fill_11316_pp_2400b_2024.png"
  /\ (forall st path old new q,
        write_file path new (write_file path old st) q
        = write_file path new st q).
Proof.
  split; [exact filename_without_metadata|].
  split; [exact filename_with_metadata|].
  split; [|split; [reflexivity|]].
  - intros w k fill_number path Hin. apply in_screenshots in Hin.
    destruct (process_fill_screenshot w k fill_number) as [E | E];
      rewrite E in Hin; simpl in Hin; [contradiction|].
    now destruct Hin.
  - intros st path old new q. unfold write_file.
    now destruct (String.eqb q path).
Qed.

(** C5. When the navigation or the screenshot of a fill raises, the fills
    after it are never reached: the run is the run on the list cut after
    that fill, with no screenshot for a later one.  Failures of the lookup
    or of the script do not stop the run: with no hard error every fill gets
    its screenshot. *)
Theorem C5_hard_error_aborts_remaining_fills :
  (forall w pre fill_number post e,
      navigate_fails w (List.length pre) = Some e
      \/ screenshot_fails w (List.length pre) = Some e ->
      download_plots str_compound w (pre ++ fill_number :: post)%list
      = download_plots str_compound w (pre ++ [fill_number])%list
      /\ (List.length
            (screenshots
               (trace (download_plots str_compound w
                         (pre ++ fill_number :: post)%list)))
          <= S (List.length pre))%nat)
  /\ (forall w fill_numbers,
        starts w -> no_hard_error w -> soft_errors_only w ->
        screenshots (trace (download_plots str_compound w fill_numbers))
        = expected_files str_compound w 0 fill_numbers
        /\ List.length (expected_files str_compound w 0 fill_numbers)
           = List.length fill_numbers).
Proof.
  split.
  - intros w pre fill_number post e Hhard.
    destruct (process_fill_hard_error w (List.length pre) fill_number e Hhard)
      as [e' Hraise].
    assert (Hcut : download_plots str_compound w (pre ++ fill_number :: post)%list
                   = download_plots str_compound w (pre ++ [fill_number])%list).
    { unfold download_plots, session, session_body.
      now rewrite (process_fills_cut w pre 0 fill_number post e' Hraise). }
    split; [exact Hcut|]. rewrite Hcut.
    pose proof (process_fills_bound w (pre ++ [fill_number])%list 0) as Hb.
    rewrite length_app in Hb. simpl in Hb.
    destruct (download_plots_screenshots w (pre ++ [fill_number])%list)
      as [-> | ->]; simpl; lia.
  - intros w fill_numbers Hstart Hhard Hsoft.
    split; [now apply download_plots_complete|apply expected_files_length].
Qed.

(** As long as the console write of line 169 goes through: whenever the
    browser was launched, the last call the orchestrator makes is the one
    that ends the session, whatever happened in between (normal completion,
    an error in the loop, an interruption), also when that call itself
    raises. *)
Lemma launched_browser_is_quit :
  forall w fill_numbers,
    In (LaunchChrome chrome_arguments)
       (trace (download_plots str_compound w fill_numbers)) ->
    launch_fails w = None ->
    exists tr,
      trace (download_plots str_compound w fill_numbers)
      = (tr ++ [DriverQuit])%list.
Proof.
  intros w fill_numbers Hin Hlaunch. revert Hin.
  unfold download_plots. rewrite Hlaunch.
  destruct (session_ends_with_quit w fill_numbers) as [trs Htrs].
  destruct (session str_compound w fill_numbers) as [tr0 r0].
  cbn [trace fst] in Htrs. subst tr0.
  destruct (dir_exists w), (makedirs_fails w), (install_fails w);
    split_outcomes; intros Hin;
    try (exfalso; simpl in Hin; intuition discriminate);
    rewrite ?app_assoc; eexists; reflexivity.
Qed.

Lemma download_plots_on_calm w fill_numbers :
  download_plots_on str_compound None w fill_numbers
  = download_plots str_compound w fill_numbers.
Proof. reflexivity. Qed.

Lemma ends_session_in tr :
  existsb ends_session tr = false -> ~ In DriverQuit tr.
Proof.
  intros H Hin. assert (Hex : existsb ends_session tr = true).
  { apply existsb_exists. now exists DriverQuit. }
  congruence.
Qed.

Lemma get_fill_metadata_keeps_session api fill_number :
  existsb ends_session (trace (get_fill_metadata api fill_number)) = false.
Proof.
  unfold get_fill_metadata. destruct (api fill_number) as [resp_json|e]; simpl.
  - destruct (metadata_of_response resp_json) as [meta|e]; simpl;
      [reflexivity|].
    now destruct (is_Exception e).
  - now destruct (is_Exception e).
Qed.

Lemma process_fill_keeps_session w k fill_number :
  existsb ends_session (trace (process_fill str_compound w k fill_number))
  = false.
Proof.
  unfold process_fill.
  pose proof (get_fill_metadata_keeps_session (oms w k) fill_number) as Hq.
  destruct (get_fill_metadata (oms w k) fill_number) as [tr0 [meta|e]];
    cbn [trace fst] in Hq; [|run; cbn [existsb ends_session orb]; assumption].
  split_outcomes; cbn [existsb ends_session orb];
    rewrite ?existsb_app, ?Hq; reflexivity.
Qed.

Lemma process_fills_keeps_session w fill_numbers :
  forall k,
    existsb ends_session
      (trace (process_fills str_compound w k fill_numbers)) = false.
Proof.
  induction fill_numbers as [|g rest IH]; intros k; [reflexivity|].
  cbn [process_fills].
  pose proof (process_fill_keeps_session w k g) as Hg.
  specialize (IH (S k)).
  destruct (process_fill str_compound w k g) as [tr [[]|e]];
    destruct (process_fills str_compound w (S k) rest) as [tr' r'];
    cbn [trace fst] in *; run; rewrite ?existsb_app, ?Hg, ?IH; reflexivity.
Qed.

(** When the console write of line 169 raises, no call ends the session,
    and a run that had launched the browser is left by that exception. *)
Lemma failed_closing_print_skips_quit w fill_numbers e :
  ~ In DriverQuit
      (trace (download_plots_on str_compound (Some e) w fill_numbers))
  /\ (In (LaunchChrome chrome_arguments)
         (trace (download_plots_on str_compound (Some e) w fill_numbers)) ->
      launch_fails w = None ->
      result (download_plots_on str_compound (Some e) w fill_numbers)
      = Raise e).
Proof.
  pose proof (process_fills_keeps_session w fill_numbers 0%nat) as Hloop.
  unfold download_plots_on, session_on, session_body, release.
  destruct (process_fills str_compound w 0 fill_numbers) as [trl rl].
  cbn [trace fst] in Hloop.
  split.
  - apply ends_session_in.
    destruct (dir_exists w), (makedirs_fails w), (install_fails w),
      (launch_fails w), (login_input w), rl; split_outcomes;
      cbn [existsb ends_session orb app];
      rewrite ?existsb_app, ?Hloop; reflexivity.
  - intros Hin Hlaunch. revert Hin. rewrite Hlaunch.
    destruct (dir_exists w), (makedirs_fails w), (install_fails w),
      (login_input w), rl;
      split_outcomes; intros Hin;
      try reflexivity;
      exfalso; simpl in Hin; intuition discriminate.
Qed.

End OrchestratorFacts.

(** C3 fails as stated: a response whose entry lacks every field, or
    carries the fields as nulls, is no failed lookup for the code.  It gives
    metadata, and the screenshot goes to a labelled file. *)
Lemma C3_counterexample :
  incomplete_entry bare_entry_response = true
  /\ incomplete_entry null_attributes_response = true
  /\ result (get_fill_metadata (fun _ => Ok bare_entry_response) 229854)
     = Ok (Some default_metadata)
  /\ screenshots
       (trace (process_fill no_compound
                 (calm (fun _ _ => Ok bare_entry_response)) 0 229854))
     = ["fills/fill_229854_pp_0b_UNKNOWN.png"]
  /\ screenshots
       (trace (process_fill no_compound
                 (calm (fun _ _ => Ok null_attributes_response)) 0 229854))
     = ["fills/fill_229854_pp_Noneb_UNKNOWN.png"]
  /\ ~ (forall (w : env) (k : nat) (fill_number : Z) (resp_json : pyval),
          oms w k fill_number = Ok resp_json ->
          incomplete_entry resp_json = true ->
          result (get_fill_metadata (oms w k) fill_number) = Ok None
          /\ screenshots (trace (process_fill no_compound w k fill_number))
             = ["fills/fill_" ++ str_int fill_number ++ ".png"]).
Proof.
  repeat split.
  intros H.
  destruct (H (calm (fun _ _ => Ok bare_entry_response)) 0%nat 229854
              bare_entry_response eq_refl eq_refl) as [Hnone _].
  discriminate Hnone.
Qed.

Lemma C3_lookup_failure_degrades_witness :
  (lookup_failure (oms service_down 0 229854)
   /\ result (get_fill_metadata (oms service_down 0) 229854) = Ok None
   /\ screenshots (trace (process_fill no_compound service_down 0 229854))
      = ["fills/fill_229854.png"])
  /\ (usable_response bare_entry_response = true
      /\ exists m,
           metadata_of_response bare_entry_response = Ok (Some m)
           /\ screenshots
                (trace (process_fill no_compound
                          (calm (fun _ _ => Ok bare_entry_response))
                          0 229854))
              = [filename_of no_compound 229854 (Some m)]).
Proof.
  split.
  - assert (H : lookup_failure (oms service_down 0 229854)).
    { apply transport_error with (e := OtherException "ConnectionError");
        reflexivity. }
    split; [exact H|].
    destruct (proj1 (C3_lookup_failure_degrades no_compound service_down 0
                       229854) H)
      as [Hnone Hgoes].
    split; [exact Hnone|].
    exact (proj1 (proj2 (Hgoes eq_refl eq_refl eq_refl))).
  - split; [reflexivity|].
    destruct (proj1 (proj2 (proj2
                (C3_lookup_failure_degrades no_compound
                   (calm (fun _ _ => Ok bare_entry_response)) 0 229854)))
                bare_entry_response eq_refl eq_refl)
      as (m & Hm & _ & Hgoes).
    exists m. split; [exact Hm|].
    refine (proj1 (proj2 (Hgoes eq_refl eq_refl eq_refl _))).
    intros e He. discriminate He.
Defined.

Lemma C4_output_path_is_determined_witness :
  In (SaveScreenshot "fills/fill_11316_pp_2400b_2024.png")
     (trace (process_fill no_compound flaky 0 11316))
  /\ "fills/fill_11316_pp_2400b_2024.png"
     = filename_of no_compound 11316 (obtained (oms flaky 0) 11316).
Proof.
  assert (H : In (SaveScreenshot "fills/fill_11316_pp_2400b_2024.png")
                 (trace (process_fill no_compound flaky 0 11316))).
  { vm_compute. tauto. }
  split; [exact H|].
  exact (proj1 (proj2 (proj2 (C4_output_path_is_determined no_compound)))
           flaky 0%nat 11316 _ H).
Defined.

Lemma C5_hard_error_aborts_remaining_fills_witness :
  (navigate_fails stalled 1 = Some (OtherException "TimeoutException")
   /\ download_plots no_compound stalled [11316; 229854; 7; 8]
      = download_plots no_compound stalled [11316; 229854])
  /\ (starts flaky /\ no_hard_error flaky /\ soft_errors_only flaky
      /\ screenshots (trace (download_plots no_compound flaky [11316; 229854]))
         = expected_files no_compound flaky 0 [11316; 229854]).
Proof.
  split.
  - split; [reflexivity|].
    apply (proj1 (C5_hard_error_aborts_remaining_fills no_compound)
             stalled [11316] 229854 [7; 8]
             (OtherException "TimeoutException")).
    left. reflexivity.
  - assert (Hstart : starts flaky).
    { repeat split; try reflexivity; [now right | now exists ""]. }
    assert (Hhard : no_hard_error flaky) by (intros j; now repeat split).
    assert (Hsoft : soft_errors_only flaky).
    { split.
      - intros j g e. simpl. destruct (g =? 11316); [discriminate|].
        now intros [= <-].
      - intros j e. simpl. now intros [= <-]. }
    split; [exact Hstart|]. split; [exact Hhard|]. split; [exact Hsoft|].
    exact (proj1 (proj2 (C5_hard_error_aborts_remaining_fills no_compound)
                    flaky [11316; 229854] Hstart Hhard Hsoft)).
Defined.

Lemma launched_browser_is_quit_after_interrupt :
  In (LaunchChrome chrome_arguments)
     (trace (download_plots no_compound interrupted [11316]))
  /\ result (download_plots no_compound interrupted [11316])
     = Raise KeyboardInterrupt
  /\ exists tr,
       trace (download_plots no_compound interrupted [11316])
       = (tr ++ [DriverQuit])%list.
Proof.
  assert (H : In (LaunchChrome chrome_arguments)
                 (trace (download_plots no_compound interrupted [11316]))).
  { vm_compute. tauto. }
  split; [exact H|]. split; [reflexivity|].
  exact (launched_browser_is_quit no_compound interrupted [11316]
           H eq_refl).
Qed.

(** C6. The session is ended by the last statement of the [finally]
    block, which comes after a console write.  When that write raises, the
    session is never ended: here the operator interrupts the login pause
    and interrupts again while "Closing browser..." is being written.  The
    browser was launched, the orchestrator is left by the second
    interruption, and no call to end the session is made.  The same run
    with the write going through ends with that call. *)
Theorem C6_interrupted_release_leaves_browser_open :
  In (LaunchChrome chrome_arguments)
     (trace (download_plots_on no_compound (Some KeyboardInterrupt)
               interrupted [11316]))
  /\ launch_fails interrupted = None
  /\ result (download_plots_on no_compound (Some KeyboardInterrupt)
               interrupted [11316])
     = Raise KeyboardInterrupt
  /\ ~ In DriverQuit
         (trace (download_plots_on no_compound (Some KeyboardInterrupt)
                   interrupted [11316]))
  /\ last (trace (download_plots_on no_compound (Some KeyboardInterrupt)
                    interrupted [11316])) DriverQuit
     = Print (nl ++ "Closing browser...")
  /\ download_plots_on no_compound None interrupted [11316]
     = download_plots no_compound interrupted [11316]
  /\ last (trace (download_plots_on no_compound None interrupted [11316]))
          (Print "")
     = DriverQuit.
Proof.
  repeat split; try (vm_compute; tauto).
  vm_compute. intuition discriminate.
Qed.

(** ** The command line *)

(** C9. An existing file that cannot be read is reported and ends the
    process with status 1 when it is named as an argument; named at the
    prompt, the same file makes the read error leave the program uncaught,
    with no report of its own. *)
Theorem C9_unreadable_file_at_prompt_is_uncaught :
  read_fill_list locked ["download_plots.py"; "locked.txt"]
  = ([Print "Reading fill numbers from file: locked.txt";
      ReadFile "locked.txt";
      PrintExn "Error reading file: " (OtherException "PermissionError")],
     Raise (SystemExit 1))
  /\ read_fill_list locked ["download_plots.py"]
     = ([Print "Enter Fill Numbers (separated by space or comma):";
         Print "OR enter a filename (e.g., fills.txt):";
         Input "> ";
         Print "Reading fill numbers from file: locked.txt";
         ReadFile "locked.txt"],
        Raise (OtherException "PermissionError"))
  /\ result (main no_compound locked service_down ["download_plots.py"])
     = Raise (OtherException "PermissionError")
  /\ uncaught (result (main no_compound locked service_down
                         ["download_plots.py"])) = true.
Proof. repeat split. Qed.

(** C10. Only the first argument is tested for being a file.  When it is
    one, the run is that of the first argument alone, and its content is
    what gets parsed; when it is not, the arguments joined by spaces are
    parsed as one text, whatever the later ones name.  Nothing else of the
    file system is consulted. *)
Theorem C10_only_first_argument_is_tested :
  forall (c : cli) (prog first_arg : string) (others : list string),
    (isfile c first_arg = true ->
     read_fill_list c (prog :: first_arg :: others)
     = read_fill_list c [prog; first_arg]
     /\ forall content,
          read_file c first_arg = Ok content ->
          result (read_fill_list c (prog :: first_arg :: others))
          = parse_input content)
    /\ (isfile c first_arg = false ->
        read_fill_list c (prog :: first_arg :: others)
        = lift (parse_input (String.concat " " (first_arg :: others))))
    /\ (forall c',
          isfile c' first_arg = isfile c first_arg ->
          read_file c' first_arg = read_file c first_arg ->
          read_fill_list c' (prog :: first_arg :: others)
          = read_fill_list c (prog :: first_arg :: others)).
Proof.
  intros c prog first_arg others. unfold read_fill_list.
  split; [|split].
  - intros H. rewrite H. split; [reflexivity|].
    intros content Hread. rewrite Hread. run.
    rewrite !parse_input_refines. reflexivity.
  - intros H. now rewrite H.
  - intros c' Hfile Hread. now rewrite Hfile, Hread.
Qed.

Lemma C10_only_first_argument_is_tested_witness :
  (isfile listing "fills.txt" = true
   /\ result (read_fill_list listing ["download_plots.py"; "fills.txt"; "999"])
      = Ok [11316; 222])
  /\ (isfile listing "7" = false
      /\ read_fill_list listing ["download_plots.py"; "7"; "fills.txt"]
         = lift (parse_input "7 fills.txt")).
Proof.
  pose proof (C10_only_first_argument_is_tested listing "download_plots.py")
    as H.
  split.
  - split; [reflexivity|].
    destruct (H "fills.txt" ["999"]) as [Hfile _].
    rewrite (proj2 (Hfile eq_refl) _ eq_refl). reflexivity.
  - split; [reflexivity|].
    destruct (H "7" ["fills.txt"]) as (_ & Hjoin & _).
    exact (Hjoin eq_refl).
Defined.

(** * Further properties *)

(** ** The string operations the parser relies on *)

Section StringFacts.

Lemma all_chars_impl (p q : ascii -> bool) s :
  (forall c, p c = true -> q c = true) ->
  all_chars p s = true -> all_chars q s = true.
Proof.
  intros Hpq. induction s as [|c rest IH]; simpl; [trivial|].
  intros H. apply andb_prop in H as [Hc Hrest].
  now rewrite (Hpq c Hc), IH.
Qed.

Lemma all_chars_app p a b :
  all_chars p (a ++ b) = all_chars p a && all_chars p b.
Proof.
  induction a as [|c rest IH]; simpl; [reflexivity|].
  now rewrite IH, andb_assoc.
Qed.

Lemma cons_first_app c (l1 l2 : list string) :
  l1 <> [] -> cons_first c (l1 ++ l2) = (cons_first c l1 ++ l2)%list.
Proof. destruct l1; [congruence|reflexivity]. Qed.

Lemma cons_first_nonempty c pieces : cons_first c pieces <> [].
Proof. now destruct pieces. Qed.

Lemma split_char_nonempty sep s : split_char sep s <> [].
Proof.
  destruct s as [|c rest]; simpl; [discriminate|].
  destruct (Ascii.eqb c sep); [discriminate|apply cons_first_nonempty].
Qed.

Lemma splitlines_nil s : splitlines s = [] -> s = "".
Proof.
  destruct s as [|c rest]; [reflexivity|]. simpl.
  destruct (is_linebreak c).
  - destruct (Ascii.eqb c CR); [|discriminate].
    destruct rest as [|c' rest']; [discriminate|].
    destruct (Ascii.eqb c' LF); discriminate.
  - intros H. now apply cons_first_nonempty in H.
Qed.

Lemma splitlines_one_line s :
  all_chars not_linebreak s = true -> s <> "" -> splitlines s = [s].
Proof.
  induction s as [|c rest IH]; [congruence|].
  simpl. intros H _. apply andb_prop in H as [Hc Hrest].
  unfold not_linebreak in Hc. destruct (is_linebreak c); [discriminate|].
  destruct rest as [|c' rest']; [reflexivity|].
  rewrite IH; [reflexivity|assumption|discriminate].
Qed.

Lemma split_char_one_piece sep s :
  all_chars (fun c => negb (Ascii.eqb c sep)) s = true ->
  split_char sep s = [s].
Proof.
  induction s as [|c rest IH]; simpl; [reflexivity|].
  intros H. apply andb_prop in H as [Hc Hrest].
  destruct (Ascii.eqb c sep); [discriminate|].
  now rewrite IH.
Qed.

(** Joining the pieces of a split gives the text back. *)
Lemma concat_split_char sep s :
  String.concat (String sep "") (split_char sep s) = s.
Proof.
  induction s as [|c rest IH]; [reflexivity|].
  simpl. destruct (Ascii.eqb_spec c sep) as [->|Hne].
  - pose proof (split_char_nonempty sep rest) as Hn.
    destruct (split_char sep rest) as [|piece pieces]; [congruence|].
    simpl in *. now rewrite IH.
  - pose proof (split_char_nonempty sep rest) as Hn.
    destruct (split_char sep rest) as [|piece pieces]; [congruence|].
    simpl in *. destruct pieces; simpl in *; now rewrite <- IH.
Qed.

(** Splitting a join of separator-free pieces gives the pieces back. *)
Lemma split_char_concat sep piece pieces :
  Forall (fun t => all_chars (fun c => negb (Ascii.eqb c sep)) t = true)
         (piece :: pieces) ->
  split_char sep (String.concat (String sep "") (piece :: pieces))
  = piece :: pieces.
Proof.
  revert piece. induction pieces as [|next pieces IH]; intros piece Hall.
  - simpl. apply split_char_one_piece. now inversion Hall.
  - inversion Hall as [|? ? Hp Hrest]; subst.
    change (String.concat (String sep "") (piece :: next :: pieces))
      with (piece ++ String sep (String.concat (String sep "") (next :: pieces))).
    specialize (IH next Hrest).
    remember (String.concat (String sep "") (next :: pieces)) as joined.
    revert Hp. clear Hall Heqjoined.
    induction piece as [|c rest IHp]; intros Hp.
    + simpl. rewrite Ascii.eqb_refl. now rewrite IH.
    + simpl in Hp. apply andb_prop in Hp as [Hc Hp].
      simpl. destruct (Ascii.eqb c sep); [discriminate|].
      now rewrite (IHp Hp).
Qed.

Lemma lstrip_without_space s : all_chars not_space s = true -> lstrip s = s.
Proof.
  destruct s as [|c rest]; simpl; [reflexivity|].
  unfold not_space. intros H. apply andb_prop in H as [Hc _].
  now destruct (isspace c).
Qed.

Lemma rstrip_without_space s : all_chars not_space s = true -> rstrip s = s.
Proof.
  induction s as [|c rest IH]; simpl; [reflexivity|].
  unfold not_space at 1. intros H. apply andb_prop in H as [Hc Hrest].
  rewrite (IH Hrest). destruct (isspace c); [discriminate|].
  now rewrite andb_false_r.
Qed.

Lemma strip_without_space s : all_chars not_space s = true -> strip s = s.
Proof.
  intros H. unfold strip.
  now rewrite (lstrip_without_space _ H), (rstrip_without_space _ H).
Qed.

Lemma int_space_is_space c : is_int_space c = true -> isspace c = true.
Proof.
  destruct c as [[|] [|] [|] [|] [|] [|] [|] [|]];
    intros; try reflexivity; try discriminate.
Qed.

Lemma int_strip_without_space s :
  all_chars not_space s = true -> int_strip s = s.
Proof.
  assert (Hno : forall c, not_space c = true -> is_int_space c = false).
  { intros c Hc. unfold not_space in Hc.
    destruct (is_int_space c) eqn:E; [|reflexivity].
    now rewrite (int_space_is_space c E) in Hc. }
  intros H. unfold int_strip.
  assert (Hl : int_lstrip s = s).
  { destruct s as [|c rest]; simpl; [reflexivity|].
    simpl in H. apply andb_prop in H as [Hc _]. now rewrite (Hno c Hc). }
  rewrite Hl. revert H. clear Hl.
  induction s as [|c rest IH]; simpl; [reflexivity|].
  intros H. apply andb_prop in H as [Hc Hrest].
  rewrite (IH Hrest), (Hno c Hc). now rewrite andb_false_r.
Qed.

(** Every token of [split()] is non-empty and free of whitespace. *)
Lemma split_ws_tokens s :
  Forall (fun tok => tok <> "" /\ all_chars not_space tok = true) (split_ws s).
Proof.
  induction s as [|c rest IH]; [constructor|].
  change (split_ws (String c rest)) with
    (if isspace c then split_ws rest
     else match rest with
          | "" => [String c ""]
          | String c' _ =>
              if isspace c' then String c "" :: split_ws rest
              else cons_first c (split_ws rest)
          end).
  destruct (isspace c) eqn:Hc; [assumption|].
  assert (Hone : String c "" <> ""
                 /\ all_chars not_space (String c "") = true).
  { split; [discriminate|]. simpl. unfold not_space. now rewrite Hc. }
  destruct rest as [|c' rest'] eqn:E; [now repeat constructor|].
  destruct (isspace c'); [now constructor|].
  destruct (split_ws (String c' rest')) as [|tok toks]; simpl;
    [now repeat constructor|].
  inversion IH as [|? ? [_ Htok] Htoks]; subst.
  constructor; [|assumption].
  split; [discriminate|]. simpl. unfold not_space at 1. now rewrite Hc.
Qed.

Lemma split_ws_one_token s :
  all_chars not_space s = true -> s <> "" -> split_ws s = [s].
Proof.
  induction s as [|c rest IH]; [congruence|].
  intros H _. simpl in H. apply andb_prop in H as [Hc Hrest].
  unfold not_space in Hc.
  change (split_ws (String c rest)) with
    (if isspace c then split_ws rest
     else match rest with
          | "" => [String c ""]
          | String c' _ =>
              if isspace c' then String c "" :: split_ws rest
              else cons_first c (split_ws rest)
          end).
  destruct (isspace c); [discriminate|].
  destruct rest as [|c' rest'] eqn:E; [reflexivity|].
  rewrite IH; [|assumption|discriminate].
  simpl in Hrest. apply andb_prop in Hrest as [Hc' _].
  unfold not_space in Hc'. now destruct (isspace c').
Qed.

(** The lines of [a], a line break, the lines of [b]: besides the lines of
    the two texts at most one empty line appears. *)
Lemma splitlines_app_newline a b :
  exists blanks,
    (blanks = [] \/ blanks = [""])
    /\ splitlines (a ++ nl ++ b)
       = (splitlines a ++ blanks ++ splitlines b)%list.
Proof.
  remember (String.length a) as n eqn:Hn.
  assert (Hle : (String.length a <= n)%nat) by lia. clear Hn.
  revert a Hle. induction n as [|n IH]; intros [|c rest] Hle;
    simpl in Hle; try lia.
  - exists [""]. split; [now right|reflexivity].
  - exists [""]. split; [now right|reflexivity].
  - destruct (IH rest ltac:(lia)) as (blanks & Hblanks & Hrest).
    change (String c rest ++ nl ++ b) with (String c (rest ++ nl ++ b)).
    destruct (is_linebreak c) eqn:Hbreak; cycle 1.
    { cbn [splitlines]. rewrite Hbreak.
      destruct rest as [|c' rest'].
      - exists []. split; [now left|]. reflexivity.
      - exists blanks. split; [assumption|].
        rewrite Hrest. apply cons_first_app.
        intros Hnil. now apply splitlines_nil in Hnil. }
    destruct (Ascii.eqb c CR) eqn:Hcr; cycle 1.
    { cbn [splitlines]. rewrite Hbreak, Hcr.
      exists blanks. split; [assumption|]. now rewrite Hrest. }
    destruct rest as [|c' rest'].
    { exists []. split; [now left|].
      cbn [splitlines]. rewrite Hbreak, Hcr. reflexivity. }
    change (String c' rest' ++ nl ++ b)
      with (String c' (rest' ++ nl ++ b)) in *.
    change (splitlines (String c (String c' (rest' ++ nl ++ b))))
      with (if is_linebreak c then
              if Ascii.eqb c CR then
                if Ascii.eqb c' LF then "" :: splitlines (rest' ++ nl ++ b)
                else "" :: splitlines (String c' (rest' ++ nl ++ b))
              else "" :: splitlines (String c' (rest' ++ nl ++ b))
            else cons_first c (splitlines (String c' (rest' ++ nl ++ b)))).
    change (splitlines (String c (String c' rest')))
      with (if is_linebreak c then
              if Ascii.eqb c CR then
                if Ascii.eqb c' LF then "" :: splitlines rest'
                else "" :: splitlines (String c' rest')
              else "" :: splitlines (String c' rest')
            else cons_first c (splitlines (String c' rest'))).
    rewrite Hbreak, Hcr.
    destruct (Ascii.eqb c' LF).
    + simpl in Hle.
      destruct (IH rest' ltac:(lia)) as (blanks' & Hb' & Hrest').
      exists blanks'. split; [assumption|]. now rewrite Hrest'.
    + exists blanks. split; [assumption|]. now rewrite Hrest.
Qed.

End StringFacts.

(** ** Further properties of the parser *)

Lemma reference_parse_joins_lines a b :
  Reference.parse (a ++ nl ++ b)
  = (Reference.parse a ++ Reference.parse b)%list.
Proof.
  unfold Reference.parse.
  destruct (splitlines_app_newline a b) as (blanks & Hblanks & ->).
  rewrite !map_app, !flat_map_app.
  now destruct Hblanks as [-> | ->].
Qed.

(** X1. Parsing two texts joined by a line break gives the numbers of the
    first followed by the numbers of the second. *)
Theorem parse_input_joins_lines :
  forall a b,
    exists fills_a fills_b,
      parse_input a = Ok fills_a /\ parse_input b = Ok fills_b
      /\ parse_input (a ++ nl ++ b) = Ok (fills_a ++ fills_b)%list.
Proof.
  intros a b. exists (Reference.parse a), (Reference.parse b).
  rewrite !parse_input_refines. repeat split. f_equal.
  apply reference_parse_joins_lines.
Qed.

Section TokenFacts.

Lemma split_ws_lstrip s : split_ws (lstrip s) = split_ws s.
Proof.
  induction s as [|c rest IH]; [reflexivity|].
  cbn [lstrip]. destruct (isspace c) eqn:Hc; [|reflexivity].
  rewrite IH.
  change (split_ws (String c rest)) with
    (if isspace c then split_ws rest
     else match rest with
          | "" => [String c ""]
          | String c' _ =>
              if isspace c' then String c "" :: split_ws rest
              else cons_first c (split_ws rest)
          end).
  now rewrite Hc.
Qed.

Lemma rstrip_keeps_head c rest :
  rstrip (String c rest) = ""
  \/ rstrip (String c rest) = String c (rstrip rest).
Proof.
  cbn [rstrip]. destruct (is_empty (rstrip rest) && isspace c); auto.
Qed.

Lemma rstrip_empty_head c rest :
  rstrip (String c rest) = "" -> isspace c = true /\ rstrip rest = "".
Proof.
  cbn [rstrip]. destruct (rstrip rest); simpl;
    destruct (isspace c); try discriminate; auto.
Qed.

Lemma split_ws_rstrip s : split_ws (rstrip s) = split_ws s.
Proof.
  induction s as [|c rest IH]; [reflexivity|].
  change (split_ws (String c rest)) with
    (if isspace c then split_ws rest
     else match rest with
          | "" => [String c ""]
          | String c' _ =>
              if isspace c' then String c "" :: split_ws rest
              else cons_first c (split_ws rest)
          end).
  destruct (rstrip_keeps_head c rest) as [E | E]; rewrite E.
  - apply rstrip_empty_head in E as [Hc Hrest].
    rewrite Hc, <- IH, Hrest. reflexivity.
  - change (split_ws (String c (rstrip rest))) with
      (if isspace c then split_ws (rstrip rest)
       else match rstrip rest with
            | "" => [String c ""]
            | String c' _ =>
                if isspace c' then String c "" :: split_ws (rstrip rest)
                else cons_first c (split_ws (rstrip rest))
            end).
    destruct (isspace c); [assumption|].
    destruct rest as [|c' rest']; [reflexivity|].
    destruct (rstrip_keeps_head c' rest') as [E' | E'].
    + rewrite <- IH, E'.
      apply rstrip_empty_head in E' as [Hc' _]. now rewrite Hc'.
    + rewrite <- IH, E'. reflexivity.
Qed.

Lemma split_ws_strip s : split_ws (strip s) = split_ws s.
Proof. unfold strip. now rewrite split_ws_rstrip, split_ws_lstrip. Qed.

(** What a segment adds is the number of its first token: the [strip] and
    the emptiness test before [split] change nothing. *)
Lemma segment_rule_first_number segment :
  Reference.segment_rule segment = first_number segment.
Proof.
  unfold Reference.segment_rule, first_number.
  rewrite split_ws_strip.
  destruct (strip segment) eqn:E; simpl; [|reflexivity].
  rewrite <- split_ws_strip, E. reflexivity.
Qed.

Lemma first_number_short text : (List.length (first_number text) <= 1)%nat.
Proof.
  unfold first_number. destruct (split_ws text) as [|tok toks]; simpl; [lia|].
  destruct (py_int tok); simpl; lia.
Qed.

Lemma within_segment_parts c :
  within_segment c = true -> not_linebreak c = true /\ not_comma c = true.
Proof. unfold within_segment. intros H. now apply andb_prop in H. Qed.

Lemma space_is_not_hash c : isspace c = true -> Ascii.eqb c "#"%char = false.
Proof.
  intros H. destruct (Ascii.eqb_spec c "#"%char) as [->|]; [|reflexivity].
  discriminate H.
Qed.

Lemma space_is_not_comma c : isspace c = true -> Ascii.eqb c ","%char = false.
Proof.
  intros H. destruct (Ascii.eqb_spec c ","%char) as [->|]; [|reflexivity].
  discriminate H.
Qed.

Lemma split_ws_space c s : isspace c = true -> split_ws (String c s) = split_ws s.
Proof. intros H. cbn [split_ws]. now rewrite H. Qed.

Lemma truncate_lstrip s :
  Reference.truncate_at_hash (lstrip s) = lstrip (Reference.truncate_at_hash s).
Proof.
  induction s as [|c rest IH]; [reflexivity|].
  cbn [lstrip Reference.truncate_at_hash].
  destruct (isspace c) eqn:Hc.
  - rewrite (space_is_not_hash c Hc). cbn [lstrip]. now rewrite Hc.
  - cbn [Reference.truncate_at_hash].
    destruct (Ascii.eqb c "#"%char); [reflexivity|].
    cbn [lstrip]. now rewrite Hc.
Qed.

(** Pieces that agree up to leading whitespace of the first one. *)
Lemma split_char_lstrip s :
  Forall2 (fun p q => split_ws p = split_ws q)
          (split_char ","%char (lstrip s)) (split_char ","%char s).
Proof.
  assert (Hrefl : forall l : list string,
             Forall2 (fun p q => split_ws p = split_ws q) l l).
  { induction l; constructor; auto. }
  induction s as [|c rest IH]; [apply Hrefl|].
  cbn [lstrip]. destruct (isspace c) eqn:Hc; [|apply Hrefl].
  cbn [split_char]. rewrite (space_is_not_comma c Hc).
  pose proof (split_char_nonempty ","%char rest) as Hn.
  destruct (split_char ","%char rest) as [|q qs]; [congruence|].
  inversion IH as [|p ? ps ? Hpq Hrest]; subst. simpl.
  constructor; [|assumption]. now rewrite split_ws_space.
Qed.

(** Pieces that agree up to trailing whitespace of the last one. *)
Lemma split_char_truncate_rstrip s :
  Forall2 (fun p q => rstrip p = rstrip q)
          (split_char ","%char (Reference.truncate_at_hash (rstrip s)))
          (split_char ","%char (Reference.truncate_at_hash s)).
Proof.
  assert (Hrefl : forall l : list string,
             Forall2 (fun p q => rstrip p = rstrip q) l l).
  { induction l; constructor; auto. }
  induction s as [|c rest IH]; [apply Hrefl|].
  destruct (rstrip_keeps_head c rest) as [E | E]; rewrite E.
  - apply rstrip_empty_head in E as [Hc Hrest]. rewrite Hrest in IH.
    cbn [Reference.truncate_at_hash]. rewrite (space_is_not_hash c Hc).
    cbn [split_char]. rewrite (space_is_not_comma c Hc).
    cbn [Reference.truncate_at_hash split_char] in *.
    inversion IH as [|? q ? qs Hq Hqs]; subst.
    inversion Hqs; subst. simpl.
    constructor; [|constructor].
    cbn [rstrip] in *. rewrite <- Hq, Hc. reflexivity.
  - cbn [Reference.truncate_at_hash].
    destruct (Ascii.eqb c "#"%char); [apply Hrefl|].
    cbn [split_char]. destruct (Ascii.eqb c ","%char).
    + constructor; [reflexivity|assumption].
    + pose proof (split_char_nonempty ","%char
                    (Reference.truncate_at_hash rest)) as Hn.
      destruct (split_char ","%char (Reference.truncate_at_hash rest))
        as [|q qs]; [congruence|].
      inversion IH as [|p ? ps ? Hpq Hrest]; subst. simpl.
      constructor; [|assumption]. cbn [rstrip]. now rewrite Hpq.
Qed.

Lemma first_number_rstrip p q :
  rstrip p = rstrip q -> first_number p = first_number q.
Proof.
  intros H. unfold first_number.
  now rewrite <- (split_ws_rstrip p), H, split_ws_rstrip.
Qed.

Lemma first_number_tokens p q :
  split_ws p = split_ws q -> first_number p = first_number q.
Proof. intros H. unfold first_number. now rewrite H. Qed.

Lemma flat_map_related {A B : Type} (R : A -> A -> Prop) (f : A -> list B)
    xs ys :
  (forall x y, R x y -> f x = f y) ->
  Forall2 R xs ys -> flat_map f xs = flat_map f ys.
Proof.
  intros Hf H. induction H as [|x y xs ys Hxy _ IH]; simpl;
    [reflexivity|]. now rewrite (Hf x y Hxy), IH.
Qed.

(** Stripping a line does not change its numbers. *)
Lemma numbers_of_line_strip line :
  numbers_of_line (strip line) = numbers_of_line line.
Proof.
  unfold numbers_of_line, strip.
  rewrite (flat_map_related _ first_number _ _ first_number_rstrip
             (split_char_truncate_rstrip (lstrip line))).
  rewrite truncate_lstrip.
  apply (flat_map_related _ first_number _ _ first_number_tokens
           (split_char_lstrip (Reference.truncate_at_hash line))).
Qed.

Lemma flat_map_segment_rule pieces :
  flat_map Reference.segment_rule pieces = flat_map first_number pieces.
Proof.
  induction pieces as [|p ps IH]; simpl; [reflexivity|].
  now rewrite segment_rule_first_number, IH.
Qed.

(** The emptiness and comment tests of a line are covered by the rest. *)
Lemma line_rule_strip line :
  Reference.line_rule (strip line) = numbers_of_line line.
Proof.
  rewrite <- numbers_of_line_strip.
  unfold Reference.line_rule, numbers_of_line.
  destruct (strip line) as [|c rest]; [reflexivity|].
  cbn [is_empty startswith Reference.truncate_at_hash].
  destruct (Ascii.eqb c "#"%char); [reflexivity|].
  apply flat_map_segment_rule.
Qed.

Lemma reference_parse_unstripped text :
  Reference.parse text = flat_map numbers_of_line (splitlines text).
Proof.
  unfold Reference.parse. induction (splitlines text) as [|l ls IH];
    simpl; [reflexivity|]. now rewrite line_rule_strip, IH.
Qed.

Lemma numbers_of_line_one_line s :
  all_chars not_linebreak s = true ->
  Reference.parse s = numbers_of_line s.
Proof.
  intros H. rewrite reference_parse_unstripped.
  destruct s as [|c rest] eqn:E; [reflexivity|]. rewrite <- E in *.
  rewrite splitlines_one_line; [|assumption|subst; discriminate].
  simpl. apply app_nil_r.
Qed.

End TokenFacts.

(** X2. The three [strip] calls, the two emptiness tests and the test for
    a leading [#] change nothing: for every input the parser returns, line
    by line, the first token of each comma-separated piece of the text
    before the first [#], converted where [int] accepts it. *)
Theorem parse_input_needs_no_stripping :
  forall input_str,
    parse_input input_str
    = Ok (flat_map numbers_of_line (splitlines input_str)).
Proof.
  intros s. rewrite parse_input_refines. f_equal.
  apply reference_parse_unstripped.
Qed.

Section LineFacts.

Lemma truncate_app_hash a b :
  Reference.truncate_at_hash (a ++ String "#"%char b)
  = Reference.truncate_at_hash a.
Proof.
  induction a as [|c rest IH]; simpl; [reflexivity|].
  destruct (Ascii.eqb c "#"%char); [reflexivity|now rewrite IH].
Qed.

Lemma truncate_app_plain a b :
  all_chars not_hash a = true ->
  Reference.truncate_at_hash (a ++ b) = a ++ Reference.truncate_at_hash b.
Proof.
  induction a as [|c rest IH]; simpl; [reflexivity|].
  unfold not_hash at 1. intros H. apply andb_prop in H as [Hc Hrest].
  destruct (Ascii.eqb c "#"%char); [discriminate|]. now rewrite IH.
Qed.

Lemma truncate_plain a :
  all_chars not_hash a = true -> Reference.truncate_at_hash a = a.
Proof.
  induction a as [|c rest IH]; simpl; [reflexivity|].
  unfold not_hash at 1. intros H. apply andb_prop in H as [Hc Hrest].
  destruct (Ascii.eqb c "#"%char); [discriminate|]. now rewrite IH.
Qed.

Lemma split_char_app_sep sep x y :
  split_char sep (x ++ String sep y)
  = (split_char sep x ++ split_char sep y)%list.
Proof.
  induction x as [|c rest IH]; simpl.
  - now rewrite Ascii.eqb_refl.
  - destruct (Ascii.eqb c sep); rewrite IH; [reflexivity|].
    apply cons_first_app, split_char_nonempty.
Qed.

Lemma plain_line_parts c :
  plain_line_char c = true -> not_linebreak c = true /\ not_hash c = true.
Proof. unfold plain_line_char. intros H. now apply andb_prop in H. Qed.

Lemma numbers_of_line_comma a b :
  all_chars not_hash a = true ->
  numbers_of_line (a ++ String ","%char b)
  = (numbers_of_line a ++ numbers_of_line b)%list.
Proof.
  intros Ha. unfold numbers_of_line.
  rewrite (truncate_app_plain _ _ Ha).
  cbn [Reference.truncate_at_hash]. cbn [Ascii.eqb Bool.eqb].
  rewrite split_char_app_sep, flat_map_app.
  now rewrite (truncate_plain _ Ha).
Qed.

End LineFacts.

Lemma reference_parse_first_token s :
  all_chars within_segment s = true ->
  Reference.parse s = first_number (Reference.truncate_at_hash s).
Proof.
  intros H. rewrite numbers_of_line_one_line.
  - unfold numbers_of_line. rewrite split_char_one_piece.
    + simpl. apply app_nil_r.
    + apply all_chars_truncate. eapply all_chars_impl; [|exact H].
      intros c Hc. now apply within_segment_parts in Hc.
  - eapply all_chars_impl; [|exact H].
    intros c Hc. now apply within_segment_parts in Hc.
Qed.

(** X3. In a text without a comma or a line break only the first token
    counts: the result is the number that token (taken before any [#])
    reads as, or nothing; further tokens are dropped. *)
Theorem parse_input_keeps_first_token_only :
  forall s,
    all_chars within_segment s = true ->
    parse_input s = Ok (first_number (Reference.truncate_at_hash s))
    /\ (List.length (first_number (Reference.truncate_at_hash s)) <= 1)%nat.
Proof.
  intros s H. split; [|apply first_number_short].
  rewrite parse_input_refines. f_equal.
  now apply reference_parse_first_token.
Qed.

Lemma parse_input_keeps_first_token_only_witness :
  all_chars within_segment "11316 1032 44 # three columns" = true
  /\ parse_input "11316 1032 44 # three columns" = Ok [11316].
Proof.
  split; [reflexivity|].
  rewrite (proj1 (parse_input_keeps_first_token_only
                    "11316 1032 44 # three columns" eq_refl)).
  reflexivity.
Defined.

(** X4. A comment appended to a line changes nothing: the line followed by
    [#] and any text up to the end of the line parses as the line alone. *)
Theorem parse_input_ignores_inline_comment :
  forall line comment,
    all_chars not_linebreak line = true ->
    all_chars not_linebreak comment = true ->
    parse_input (line ++ String "#"%char comment) = parse_input line.
Proof.
  intros line comment Hline Hcomment.
  rewrite !parse_input_refines. f_equal.
  rewrite !numbers_of_line_one_line; [|assumption|].
  - unfold numbers_of_line. now rewrite truncate_app_hash.
  - rewrite all_chars_app, Hline. simpl. now rewrite Hcomment.
Qed.

Lemma parse_input_ignores_inline_comment_witness :
  parse_input ("11316, 222" ++ String "#"%char " good fills, 333")
  = parse_input "11316, 222".
Proof.
  apply parse_input_ignores_inline_comment; reflexivity.
Defined.

(** X5. A comma joins like a line break: when the text before it holds no
    [#], the numbers of the two sides follow one another. *)
Theorem parse_input_joins_segments :
  forall a b,
    all_chars plain_line_char a = true ->
    all_chars not_linebreak b = true ->
    exists fills_a fills_b,
      parse_input a = Ok fills_a /\ parse_input b = Ok fills_b
      /\ parse_input (a ++ String ","%char b) = Ok (fills_a ++ fills_b)%list.
Proof.
  intros a b Ha Hb.
  assert (Ha1 : all_chars not_linebreak a = true).
  { eapply all_chars_impl; [|exact Ha].
    intros c Hc. now apply plain_line_parts in Hc. }
  assert (Ha2 : all_chars not_hash a = true).
  { eapply all_chars_impl; [|exact Ha].
    intros c Hc. now apply plain_line_parts in Hc. }
  exists (numbers_of_line a), (numbers_of_line b).
  rewrite !parse_input_refines.
  rewrite !numbers_of_line_one_line; try assumption.
  - repeat split. now rewrite numbers_of_line_comma.
  - rewrite all_chars_app, Ha1. simpl. now rewrite Hb.
Qed.

Lemma parse_input_joins_segments_witness :
  exists fills_a fills_b,
    parse_input "11316 1032" = Ok fills_a
    /\ parse_input " 222 # two" = Ok fills_b
    /\ parse_input ("11316 1032" ++ String ","%char " 222 # two")
       = Ok (fills_a ++ fills_b)%list.
Proof.
  apply parse_input_joins_segments; reflexivity.
Defined.

(** ** The decimal text of an integer *)

Section IntegerTextFacts.

Ltac by_character c :=
  destruct c as [[|] [|] [|] [|] [|] [|] [|] [|]];
  intros; try reflexivity; try discriminate.

Lemma digit_is_decimal c : is_digit c = true -> is_decimal_char c = true.
Proof. unfold is_decimal_char. now intros ->. Qed.

Lemma decimal_is_bare c : is_decimal_char c = true -> bare c = true.
Proof. revert c. intros c. by_character c. Qed.

Lemma decimal_is_not_space c : is_decimal_char c = true -> not_space c = true.
Proof. by_character c. Qed.

Lemma decimal_is_within_line c :
  is_decimal_char c = true -> plain_line_char c = true.
Proof. by_character c. Qed.

Lemma digit_is_no_sign c :
  is_digit c = true ->
  Ascii.eqb c "-"%char = false /\ Ascii.eqb c "+"%char = false
  /\ Ascii.eqb c underscore = false.
Proof. by_character c; repeat split. Qed.

Lemma string_of_uint_digits d :
  all_chars is_digit (NilEmpty.string_of_uint d) = true.
Proof. induction d; simpl; auto. Qed.

Lemma scan_string_of_uint d :
  forall acc n,
    scan_digits false acc n (NilEmpty.string_of_uint d)
    = Some (uint_value acc d,
            (n + String.length (NilEmpty.string_of_uint d))%nat).
Proof.
  induction d; intros acc n; cbn [NilEmpty.string_of_uint uint_value];
    [simpl; now rewrite Nat.add_0_r|..];
    cbn [scan_digits String.length]; rewrite Nat.add_succ_r;
    apply (IHd _ (S n)).
Qed.

Lemma uint_value_pos d :
  forall acc, uint_value (Z.pos acc) d = Z.pos (Pos.of_uint_acc d acc).
Proof.
  induction d; intros acc; cbn [uint_value Pos.of_uint_acc];
    [reflexivity|..]; rewrite <- IHd; f_equal; lia.
Qed.

Lemma uint_value_zero d : uint_value 0 d = Z.of_N (Pos.of_uint d).
Proof.
  induction d; cbn [uint_value Pos.of_uint]; [reflexivity|assumption|..];
    apply (uint_value_pos d).
Qed.

Lemma string_of_uint_nonempty d :
  d <> Decimal.Nil -> NilEmpty.string_of_uint d <> "".
Proof. destruct d; simpl; congruence. Qed.

(** The text of an integer: digits, after a minus sign when negative. *)
Lemma str_int_shape z :
  exists d,
    d <> Decimal.Nil
    /\ ((str_int z = NilEmpty.string_of_uint d
         /\ z = Z.of_N (Pos.of_uint d))
        \/ (str_int z = String "-"%char (NilEmpty.string_of_uint d)
            /\ z = - Z.of_N (Pos.of_uint d))).
Proof.
  unfold str_int. destruct z as [|p|p]; cbn [Z.to_int].
  - exists (Decimal.D0 Decimal.Nil). split; [discriminate|]. now left.
  - exists (Pos.to_uint p).
    pose proof (Unsigned.to_uint_nonnil p) as Hn.
    split; [assumption|]. left. rewrite Unsigned.of_to.
    split; [|reflexivity]. cbn [NilZero.string_of_int].
    unfold NilZero.string_of_uint. now destruct (Pos.to_uint p).
  - exists (Pos.to_uint p).
    pose proof (Unsigned.to_uint_nonnil p) as Hn.
    split; [assumption|]. right. rewrite Unsigned.of_to.
    split; [|reflexivity]. cbn [NilZero.string_of_int].
    unfold NilZero.string_of_uint. now destruct (Pos.to_uint p).
Qed.

Lemma str_int_decimal z : all_chars is_decimal_char (str_int z) = true.
Proof.
  destruct (str_int_shape z) as (d & _ & [[-> _] | [-> _]]);
    cbn [all_chars]; try (cbn [is_decimal_char]; simpl andb);
    apply (all_chars_impl is_digit), string_of_uint_digits;
    apply digit_is_decimal.
Qed.

Lemma str_int_nonempty z : str_int z <> "".
Proof.
  destruct (str_int_shape z) as (d & Hd & [[-> _] | [-> _]]);
    [now apply string_of_uint_nonempty|discriminate].
Qed.

Lemma py_int_of_digits sign digits :
  sign = 1 \/ sign = -1 ->
  digits <> "" -> all_chars is_digit digits = true ->
  (String.length digits <= int_max_str_digits)%nat ->
  forall v,
    scan_digits false 0 0 digits = Some (v, String.length digits) ->
    py_int (if sign =? 1 then digits else String "-"%char digits)
    = Ok (sign * v).
Proof.
  intros Hsign Hne Hdigits Hlimit v Hscan.
  assert (Hspace : all_chars not_space digits = true).
  { apply (all_chars_impl is_digit); [|assumption].
    intros c Hc. now apply decimal_is_not_space, digit_is_decimal. }
  destruct digits as [|c rest]; [congruence|].
  pose proof Hdigits as Hc. cbn [all_chars] in Hc.
  apply andb_prop in Hc as [Hc _].
  destruct (digit_is_no_sign c Hc) as (Hminus & Hplus & Hunder).
  unfold py_int.
  assert (Hsplit : split_sign (int_strip
                                 (if sign =? 1 then String c rest
                                  else String "-"%char (String c rest)))
                   = (sign, String c rest)).
  { destruct Hsign as [-> | ->]; cbn [Z.eqb Pos.eqb].
    - rewrite (int_strip_without_space _ Hspace). cbn [split_sign].
      now rewrite Hminus, Hplus.
    - rewrite int_strip_without_space; [reflexivity|].
      cbn [all_chars]. cbn [all_chars] in Hspace. now rewrite Hspace. }
  rewrite Hsplit. cbn [startswith]. rewrite Hunder, Hscan.
  cbn [String.length] in *. cbn [Nat.eqb].
  apply Nat.ltb_ge in Hlimit. now rewrite Hlimit.
Qed.

(** [int(str(n))] is [n] for a text within the digit limit. *)
Lemma py_int_str_int z : within_int_limit z -> py_int (str_int z) = Ok z.
Proof.
  unfold within_int_limit. intros Hlimit.
  destruct (str_int_shape z) as (d & Hd & [[Htext Hz] | [Htext Hz]]);
    rewrite Htext in *.
  - rewrite Hz, <- uint_value_zero, <- (Z.mul_1_l (uint_value 0 d)).
    apply (py_int_of_digits 1); auto using string_of_uint_nonempty,
      string_of_uint_digits.
    apply (scan_string_of_uint d 0 0%nat).
  - rewrite Hz, <- uint_value_zero, Z.opp_eq_mul_m1, Z.mul_comm.
    apply (py_int_of_digits (-1)); auto using string_of_uint_nonempty,
      string_of_uint_digits.
    + cbn [String.length] in Hlimit. lia.
    + apply (scan_string_of_uint d 0 0%nat).
Qed.

Lemma first_number_str_int z :
  within_int_limit z -> first_number (str_int z) = [z].
Proof.
  intros H. unfold first_number.
  rewrite split_ws_one_token.
  - now rewrite py_int_str_int.
  - apply (all_chars_impl is_decimal_char); [|apply str_int_decimal].
    apply decimal_is_not_space.
  - apply str_int_nonempty.
Qed.

Lemma numbers_of_line_str_int z :
  within_int_limit z -> numbers_of_line (str_int z) = [z].
Proof.
  intros H. unfold numbers_of_line.
  rewrite truncate_plain, split_char_one_piece.
  - simpl. now rewrite first_number_str_int.
  - apply (all_chars_impl is_decimal_char); [|apply str_int_decimal].
    intros c Hc. apply decimal_is_bare in Hc. unfold bare in Hc.
    apply andb_prop in Hc as [Hc _]. now apply andb_prop in Hc.
  - apply (all_chars_impl is_decimal_char); [|apply str_int_decimal].
    intros c Hc. apply decimal_is_bare in Hc. unfold bare in Hc.
    now apply andb_prop in Hc.
Qed.

Lemma all_chars_concat p sep pieces :
  all_chars p sep = true ->
  Forall (fun t => all_chars p t = true) pieces ->
  all_chars p (String.concat sep pieces) = true.
Proof.
  intros Hsep H. induction H as [|t ts Ht Hts IH]; [reflexivity|].
  cbn [String.concat]. destruct ts as [|t' ts']; [assumption|].
  rewrite !all_chars_app, Ht, Hsep. exact IH.
Qed.

Lemma str_int_one_line z : all_chars not_linebreak (str_int z) = true.
Proof.
  apply (all_chars_impl is_decimal_char); [|apply str_int_decimal].
  intros c Hc. apply decimal_is_within_line in Hc.
  now apply plain_line_parts in Hc.
Qed.

Lemma str_int_without_hash z : all_chars not_hash (str_int z) = true.
Proof.
  apply (all_chars_impl is_decimal_char); [|apply str_int_decimal].
  intros c Hc. apply decimal_is_within_line in Hc.
  now apply plain_line_parts in Hc.
Qed.

Lemma numbers_of_line_after_space t :
  numbers_of_line (String " "%char t) = numbers_of_line t.
Proof.
  rewrite <- (numbers_of_line_strip (String " "%char t)).
  rewrite <- (numbers_of_line_strip t). reflexivity.
Qed.

Lemma numbers_of_line_list xs :
  Forall within_int_limit xs ->
  numbers_of_line (String.concat ", " (map str_int xs)) = xs.
Proof.
  induction xs as [|x rest IH]; [reflexivity|].
  intros H. inversion H as [|? ? Hx Hrest]; subst.
  destruct rest as [|y more].
  - simpl. now apply numbers_of_line_str_int.
  - change (String.concat ", " (map str_int (x :: y :: more)))
      with (str_int x
            ++ String ","%char
                 (String " "%char
                    (String.concat ", " (map str_int (y :: more))))).
    rewrite numbers_of_line_comma by apply str_int_without_hash.
    rewrite numbers_of_line_after_space, (IH Hrest).
    now rewrite numbers_of_line_str_int.
Qed.

Lemma reference_parse_lines xs :
  Forall within_int_limit xs ->
  Reference.parse (String.concat nl (map str_int xs)) = xs.
Proof.
  induction xs as [|x rest IH]; [reflexivity|].
  intros H. inversion H as [|? ? Hx Hrest]; subst.
  assert (Hone : Reference.parse (str_int x) = [x]).
  { rewrite numbers_of_line_one_line by apply str_int_one_line.
    now apply numbers_of_line_str_int. }
  destruct rest as [|y more]; [exact Hone|].
  change (String.concat nl (map str_int (x :: y :: more)))
    with (str_int x ++ nl ++ String.concat nl (map str_int (y :: more))).
  now rewrite reference_parse_joins_lines, Hone, (IH Hrest).
Qed.

End IntegerTextFacts.

(** X6. Numbers written out with [str] are read back unchanged, whether
    they are separated by a comma and a space or put one per line, as long
    as each text stays within the digit limit of [int]. *)
Theorem parse_input_reads_back_printed_numbers :
  forall xs,
    Forall within_int_limit xs ->
    parse_input (String.concat ", " (map str_int xs)) = Ok xs
    /\ parse_input (String.concat nl (map str_int xs)) = Ok xs.
Proof.
  intros xs H. rewrite !parse_input_refines. split; f_equal.
  - rewrite numbers_of_line_one_line; [now apply numbers_of_line_list|].
    apply all_chars_concat; [reflexivity|].
    apply Forall_map, Forall_forall. intros x _. apply str_int_one_line.
  - now apply reference_parse_lines.
Qed.

Lemma parse_input_reads_back_printed_numbers_witness :
  Forall within_int_limit [11316; -4; 0]
  /\ parse_input (String.concat ", " (map str_int [11316; -4; 0]))
     = Ok [11316; -4; 0].
Proof.
  assert (H : Forall within_int_limit [11316; -4; 0]).
  { repeat constructor; unfold within_int_limit;
      apply Nat.ltb_ge; reflexivity. }
  split; [exact H|].
  exact (proj1 (parse_input_reads_back_printed_numbers _ H)).
Defined.

(** ** Further properties of the command line *)

Section CommandLineFacts.

Lemma bare_parts c :
  bare c = true ->
  not_space c = true /\ not_comma c = true /\ not_hash c = true.
Proof.
  unfold bare. intros H. apply andb_prop in H as [H Hh].
  apply andb_prop in H as [Hs Hc]. auto.
Qed.

Lemma space_is_within_segment c :
  bare c = true -> within_segment c = true.
Proof.
  destruct c as [[|] [|] [|] [|] [|] [|] [|] [|]];
    intros; try reflexivity; try discriminate.
Qed.

Lemma split_ws_first_token a w :
  a <> "" -> all_chars not_space a = true -> starts_blank w = true ->
  split_ws (a ++ w) = a :: split_ws w.
Proof.
  induction a as [|c rest IH]; [congruence|].
  intros _ Ha Hw. cbn [all_chars] in Ha. apply andb_prop in Ha as [Hc Hrest].
  unfold not_space in Hc.
  change (String c rest ++ w) with (String c (rest ++ w)).
  change (split_ws (String c (rest ++ w))) with
    (if isspace c then split_ws (rest ++ w)
     else match rest ++ w with
          | "" => [String c ""]
          | String c' _ =>
              if isspace c' then String c "" :: split_ws (rest ++ w)
              else cons_first c (split_ws (rest ++ w))
          end).
  destruct (isspace c); [discriminate|].
  destruct rest as [|c' rest'].
  - cbn [append]. destruct w as [|c' w']; [reflexivity|].
    cbn [starts_blank] in Hw. now rewrite Hw.
  - rewrite IH; [|discriminate|assumption|assumption].
    cbn [all_chars] in Hrest. apply andb_prop in Hrest as [Hc' _].
    unfold not_space in Hc'. cbn [append].
    now destruct (isspace c').
Qed.

Lemma first_number_first_token a w :
  a <> "" -> all_chars not_space a = true -> starts_blank w = true ->
  first_number (a ++ w) = first_number a.
Proof.
  intros Hne Ha Hw. unfold first_number.
  now rewrite (split_ws_first_token a w Hne Ha Hw),
    (split_ws_one_token a Ha Hne).
Qed.

(** Joined by spaces, the arguments after a bare first one do not count. *)
Lemma reference_parse_arguments a others :
  a <> "" -> all_chars bare a = true ->
  Forall (fun t => all_chars within_segment t = true) others ->
  Reference.parse (String.concat " " (a :: others)) = Reference.parse a.
Proof.
  intros Hne Ha Hothers.
  assert (Hspace : all_chars not_space a = true).
  { eapply all_chars_impl; [|exact Ha]. intros c Hc.
    now apply bare_parts in Hc. }
  assert (Hhash : all_chars not_hash a = true).
  { eapply all_chars_impl; [|exact Ha]. intros c Hc.
    now apply bare_parts in Hc. }
  assert (Hseg : all_chars within_segment a = true).
  { eapply all_chars_impl; [|exact Ha]. apply space_is_within_segment. }
  rewrite !reference_parse_first_token; try assumption.
  - cbn [String.concat]. destruct others as [|b more]; [reflexivity|].
    rewrite (truncate_plain a Hhash), (truncate_app_plain _ _ Hhash).
    now apply first_number_first_token.
  - apply all_chars_concat; [reflexivity|]. now constructor.
Qed.

End CommandLineFacts.

(** X7. When the first argument is not a file and is a bare token (no
    whitespace, comma or [#]), the arguments after it are ignored as long
    as they hold no comma or line break: the run is that of the first
    argument alone. *)
Theorem read_fill_list_uses_first_argument_only :
  forall (c : cli) (prog first_arg : string) (others : list string),
    isfile c first_arg = false ->
    first_arg <> "" -> all_chars bare first_arg = true ->
    Forall (fun t => all_chars within_segment t = true) others ->
    read_fill_list c (prog :: first_arg :: others)
    = read_fill_list c [prog; first_arg].
Proof.
  intros c prog first_arg others Hfile Hne Hbare Hothers.
  unfold read_fill_list. rewrite Hfile. unfold lift. f_equal.
  rewrite !parse_input_refines. f_equal.
  now apply reference_parse_arguments.
Qed.

Lemma read_fill_list_uses_first_argument_only_witness :
  isfile listing "11316" = false
  /\ result (read_fill_list listing
               ["download_plots.py"; "11316"; "229854"; "7"])
     = Ok [11316].
Proof.
  split; [reflexivity|].
  rewrite (read_fill_list_uses_first_argument_only listing
             "download_plots.py" "11316" ["229854"; "7"]).
  - reflexivity.
  - reflexivity.
  - discriminate.
  - reflexivity.
  - repeat constructor.
Defined.

(** ** Further properties of the metadata lookup *)

Section MoreLookupFacts.

Local Open Scope py_scope.

Lemma collision_system_cases fill_type system :
  collision_system fill_type = Ok system ->
  (truthy fill_type = false /\ system = "pp")
  \/ (exists s, fill_type = PStr s /\ s <> ""
                /\ system = system_of_type s).
Proof.
  unfold collision_system, type_mentions, system_of_type.
  destruct (truthy fill_type) eqn:T; simpl.
  - destruct fill_type; simpl; try discriminate.
    intros H. right. exists s. split; [reflexivity|].
    split; [intros ->; discriminate T|].
    destruct (contains "ION" (upper s)); simpl in *.
    + now injection H as <-.
    + destruct (contains "PBPB" (upper s)); simpl in *.
      * now injection H as <-.
      * destruct (contains "PROTON" (upper s)); now injection H as <-.
  - intros [= <-]. now left.
Qed.

Lemma collision_system_raises fill_type :
  truthy fill_type = true -> (forall s, fill_type <> PStr s) ->
  collision_system fill_type = Raise AttributeError.
Proof.
  intros T Hns. unfold collision_system, type_mentions. rewrite T.
  destruct fill_type; simpl; try reflexivity. now destruct (Hns s).
Qed.

Lemma metadata_type_source resp_json m :
  metadata_of_response resp_json = Ok (Some m) ->
  collision_system (meta_type m) = Ok (meta_system m).
Proof.
  unfold metadata_of_response. intros H.
  step H. step H.
  match type of H with (if ?b then _ else _) = _ => destruct b end;
    [|discriminate H].
  repeat step H. injection H as <-. simpl. assumption.
Qed.

End MoreLookupFacts.

(** X8. The collision system is a function of the fill type alone: "pp"
    for an absent, null or empty type, and for a text "PbPb" exactly when
    its upper-case form contains ION or PBPB; metadata is never produced
    with a type that is a number, a list or a dict. *)
Theorem metadata_system_follows_type :
  forall resp_json m,
    metadata_of_response resp_json = Ok (Some m) ->
    (truthy (meta_type m) = false /\ meta_system m = "pp")
    \/ (exists s, meta_type m = PStr s /\ s <> ""
                  /\ meta_system m = system_of_type s).
Proof.
  intros resp_json m H.
  apply collision_system_cases, (metadata_type_source resp_json), H.
Qed.

Lemma metadata_system_follows_type_witness :
  (truthy (PStr "PROTONS") = false /\ "pp" = "pp")
  \/ (exists s, PStr "PROTONS" = PStr s /\ s <> ""
                /\ "pp" = system_of_type s).
Proof.
  exact (metadata_system_follows_type usual_response
           {| meta_bunches := PInt 2400; meta_system := "pp";
              meta_type := PStr "PROTONS";
              meta_year := PStr "2024" |} eq_refl).
Defined.

(** X9. Only the first entry of the response is read, and an entry without
    the three attributes still gives metadata: 0 bunches, system "pp", type
    and year "UNKNOWN". *)
Theorem metadata_first_entry_and_defaults :
  (forall bindings entry others,
      lookup "data" bindings = Some (PList (entry :: others)) ->
      metadata_of_response (PDict bindings)
      = metadata_of_response (PDict [("data", PList [entry])]))
  /\ (forall entry attributes,
        py_get entry "attributes" (PDict []) = Ok (PDict attributes) ->
        lookup "fill_type_runtime" attributes = None ->
        lookup "bunches_colliding" attributes = None ->
        lookup "start_time" attributes = None ->
        metadata_of_response (PDict [("data", PList [entry])])
        = Ok (Some default_metadata)).
Proof.
  split.
  - intros bindings entry others H. unfold metadata_of_response.
    cbn [py_get lookup String.eqb Ascii.eqb Bool.eqb]. rewrite H. reflexivity.
  - intros entry attributes Hattr Htype Hbunches Hstart.
    unfold metadata_of_response.
    cbn [py_get lookup String.eqb Ascii.eqb Bool.eqb bind truthy py_len
         List.length py_item0 index0].
    cbn [Z.of_nat Z.ltb Z.compare Pos.of_succ_nat bind]. rewrite Hattr.
    cbn [bind py_get]. rewrite Htype, Hbunches, Hstart. reflexivity.
Qed.

Lemma metadata_first_entry_and_defaults_witness :
  metadata_of_response
    (PDict [("data", PList [PDict []; PDict [("attributes", PInt 3)]])])
  = Ok (Some default_metadata).
Proof.
  destruct metadata_first_entry_and_defaults as [Hfirst Hdefault].
  rewrite (Hfirst [("data", PList [PDict []; PDict [("attributes", PInt 3)]])]
             (PDict []) [PDict [("attributes", PInt 3)]] eq_refl).
  apply (Hdefault (PDict []) []); reflexivity.
Defined.

(** X10. [get_fill_metadata] raises exactly when the service call raised
    something outside the Exception hierarchy, and then raises the same
    thing; every other failure ends in an answer. *)
Theorem get_fill_metadata_raises_only_interrupts :
  forall api fill_number e,
    result (get_fill_metadata api fill_number) = Raise e
    <-> (api fill_number = Raise e /\ is_Exception e = false).
Proof.
  intros api fill_number e. split.
  - destruct (api fill_number) as [resp_json|e0] eqn:Hapi.
    + rewrite (get_fill_metadata_answered _ _ _ Hapi).
      destruct (metadata_of_response resp_json); discriminate.
    + destruct (is_Exception e0) eqn:He0.
      * rewrite (get_fill_metadata_caught _ _ _ Hapi He0). discriminate.
      * unfold get_fill_metadata. rewrite Hapi. simpl. rewrite He0.
        simpl. intros [= <-]. now split.
  - intros [Hapi He]. unfold get_fill_metadata. rewrite Hapi. simpl.
    now rewrite He.
Qed.

Lemma get_fill_metadata_raises_only_interrupts_witness :
  result (get_fill_metadata (fun _ => Raise KeyboardInterrupt) 11316)
  = Raise KeyboardInterrupt.
Proof.
  apply (proj2 (get_fill_metadata_raises_only_interrupts
                  (fun _ => Raise KeyboardInterrupt) 11316
                  KeyboardInterrupt)).
  split; reflexivity.
Defined.

(** ** Addresses and file names *)

Section NamingFacts.

Lemma quote_plus_decimal_char safe c :
  is_decimal_char c = true -> quote_plus_char safe c = String c "".
Proof.
  destruct c as [[|] [|] [|] [|] [|] [|] [|] [|]];
    intros; try reflexivity; try discriminate.
Qed.

Lemma quote_plus_decimal safe s :
  all_chars is_decimal_char s = true -> quote_plus safe s = s.
Proof.
  induction s as [|c rest IH]; simpl; [reflexivity|].
  intros H. apply andb_prop in H as [Hc Hrest].
  now rewrite (quote_plus_decimal_char safe c Hc), IH.
Qed.

Lemma url_of_quoted value :
  base_url ++ "?"
  ++ urlencode (dict_set base_params "cms_fill" value) "|"
  = report_url_prefix ++ quote_plus "|" value.
Proof. reflexivity. Qed.

Lemma str_int_injective a b : str_int a = str_int b -> a = b.
Proof.
  unfold str_int. intros H. apply DecimalZ.to_int_inj.
  assert (Hok : forall z, Z.to_int z <> Decimal.Pos Decimal.Nil
                          /\ Z.to_int z <> Decimal.Neg Decimal.Nil).
  { intros [|p|p]; cbn [Z.to_int]; split; try discriminate;
      intros [= Hp]; now apply (Unsigned.to_uint_nonnil p). }
  destruct (Hok a) as [Ha1 Ha2]. destruct (Hok b) as [Hb1 Hb2].
  pose proof (NilZero.isi _ Ha1 Ha2) as Ea.
  pose proof (NilZero.isi _ Hb1 Hb2) as Eb.
  rewrite H in Ea. congruence.
Qed.

(** Two decimal texts followed by something else agree as soon as the
    whole texts do. *)
Lemma decimal_prefix_unique a :
  forall b c x d y,
    all_chars is_decimal_char a = true ->
    all_chars is_decimal_char b = true ->
    is_decimal_char c = false -> is_decimal_char d = false ->
    a ++ String c x = b ++ String d y -> a = b.
Proof.
  induction a as [|a0 a' IH]; intros [|b0 b'] c x d y Ha Hb Hc Hd H;
    simpl in *.
  - reflexivity.
  - injection H as -> _. apply andb_prop in Hb as [Hb _]. congruence.
  - injection H as -> _. apply andb_prop in Ha as [Ha _]. congruence.
  - injection H as -> H. apply andb_prop in Ha as [_ Ha].
    apply andb_prop in Hb as [_ Hb].
    f_equal. apply (IH b' c x d y); assumption.
Qed.

Lemma filename_shape str_compound fill_number meta :
  exists c tail,
    is_decimal_char c = false
    /\ filename_of str_compound fill_number meta
       = "fills/fill_" ++ str_int fill_number ++ String c tail.
Proof.
  destruct meta as [m|].
  - exists "_"%char. eexists. split; [reflexivity|].
    rewrite filename_with_metadata. reflexivity.
  - exists "."%char, "png". split; [reflexivity|].
    apply filename_without_metadata.
Qed.

End NamingFacts.

(** X11. The address loaded for a fill is the fixed report address, its
    parameters in the order of the table with [|] kept, spaces as [+] and
    [*] escaped, followed by the decimal text of the fill number as the
    value of cms_fill. *)
Theorem url_of_is_prefix_and_number :
  forall fill_number,
    url_of fill_number = report_url_prefix ++ str_int fill_number.
Proof.
  intros fill_number. unfold url_of. cbv zeta.
  rewrite url_of_quoted. f_equal.
  apply quote_plus_decimal, str_int_decimal.
Qed.

(** X12. Two different fills are never saved under the same file name,
    whatever their metadata. *)
Theorem filename_of_separates_fills :
  forall str_compound f g meta_f meta_g,
    f <> g ->
    filename_of str_compound f meta_f <> filename_of str_compound g meta_g.
Proof.
  intros str_compound f g meta_f meta_g Hne Heq. apply Hne.
  destruct (filename_shape str_compound f meta_f) as (c & x & Hc & Ef).
  destruct (filename_shape str_compound g meta_g) as (d & y & Hd & Eg).
  rewrite Ef, Eg in Heq. cbn [append] in Heq.
  repeat match type of Heq with
         | String _ _ = String _ _ => injection Heq as Heq
         end.
  apply str_int_injective.
  apply (decimal_prefix_unique _ _ c x d y);
    auto using str_int_decimal.
Qed.

Lemma filename_of_separates_fills_witness :
  11316 <> 229854
  /\ filename_of no_compound 11316 (Some example_metadata)
     <> filename_of no_compound 229854 None.
Proof.
  assert (H : 11316 <> 229854) by discriminate.
  split; [exact H|].
  exact (filename_of_separates_fills no_compound 11316 229854
           (Some example_metadata) None H).
Defined.

(** ** Further properties of the orchestrator *)

Section MoreOrchestratorFacts.

Variable str_compound : pyval -> string.

Local Arguments url_of : simpl never.
Local Arguments script_of : simpl never.
Local Arguments title_of : simpl never.
Local Arguments meta_label : simpl never.
Local Arguments filename_of : simpl never.






(** X14. When the driver cannot be installed or the browser cannot be
    launched (an error of the Exception hierarchy), the orchestrator
    prints the error and returns normally: nothing is done for any fill and
    no session is opened or ended. *)
Theorem download_plots_gives_up_without_browser :
  forall w fill_numbers e,
    dir_exists w = true \/ makedirs_fails w = None ->
    is_Exception e = true ->
    (install_fails w = Some e ->
     result (download_plots str_compound w fill_numbers) = Ok tt
     /\ calls (trace (download_plots str_compound w fill_numbers))
        = setup_calls w)
    /\ (install_fails w = None -> launch_fails w = Some e ->
        result (download_plots str_compound w fill_numbers) = Ok tt
        /\ calls (trace (download_plots str_compound w fill_numbers))
           = (setup_calls w ++ [LaunchChrome chrome_arguments])%list).
Proof.
  intros w fill_numbers e Hdir He. unfold download_plots, setup_calls.
  split.
  - intros Hinst. rewrite Hinst.
    destruct Hdir as [-> | Hmk]; [|rewrite Hmk; destruct (dir_exists w)];
      run; rewrite He; run; now split.
  - intros Hinst Hlaunch. rewrite Hinst, Hlaunch.
    destruct Hdir as [-> | Hmk]; [|rewrite Hmk; destruct (dir_exists w)];
      run; rewrite He; run; now split.
Qed.



End MoreOrchestratorFacts.


Lemma download_plots_gives_up_without_browser_witness :
  install_fails no_driver = Some (OtherException "ConnectionError")
  /\ result (download_plots no_compound no_driver [11316; 229854]) = Ok tt
  /\ calls (trace (download_plots no_compound no_driver [11316; 229854]))
     = [Makedirs "fills"; InstallDriver].
Proof.
  split; [reflexivity|].
  apply (proj1 (download_plots_gives_up_without_browser no_compound
                  no_driver [11316; 229854]
                  (OtherException "ConnectionError")
                  (or_intror eq_refl) eq_refl)).
  reflexivity.
Defined.


(** ** Further properties of the entry point *)

Section EntryFacts.

Variable str_compound : pyval -> string.

Lemma read_fill_list_installs_nothing c argv :
  ~ In InstallDriver (trace (read_fill_list c argv)).
Proof.
  unfold read_fill_list.
  destruct argv as [|prog [|first_arg others]].
  1,2: destruct (prompt_line c) as [line|e]; run;
    [destruct (is_empty (strip line)); run;
     [|destruct (isfile c (strip line)); run;
       [destruct (read_file c (strip line)) as [content|e]; run|]]
    |];
    rewrite ?parse_input_refines; run;
    try destruct (is_KeyboardInterrupt e); run;
    simpl; intuition discriminate.
  destruct (isfile c first_arg); run;
    [destruct (read_file c first_arg) as [content|e]; run;
     rewrite ?parse_input_refines; run;
     try destruct (is_Exception e); run|
     rewrite ?parse_input_refines; run];
    simpl; intuition discriminate.
Qed.

(** X16. The script installs a driver, and so starts a browser, only when
    at least one fill number was read; when none was, it prints that no
    valid fill number was provided and ends normally. *)
Theorem main_starts_browser_only_with_fills :
  forall c w argv,
    (In InstallDriver (trace (main str_compound c w argv)) ->
     exists fill_list,
       result (read_fill_list c argv) = Ok fill_list /\ fill_list <> [])
    /\ (result (read_fill_list c argv) = Ok [] ->
        main str_compound c w argv
        = ((trace (read_fill_list c argv)
            ++ [Print "No valid fill numbers provided."])%list, Ok tt)).
Proof.
  intros c w argv. unfold main.
  pose proof (read_fill_list_installs_nothing c argv) as Hquiet.
  destruct (read_fill_list c argv) as [tr [[|n more]|e]];
    cbn [trace result fst snd] in *.
  - split; [|reflexivity]. run. intros Hin. exfalso.
    apply in_app_or in Hin as [Hin | Hin]; [auto|].
    simpl in Hin. intuition discriminate.
  - split; [|discriminate]. intros _. exists (n :: more).
    split; [reflexivity|discriminate].
  - split; [|discriminate]. run. intros Hin. now exfalso.
Qed.

End EntryFacts.

Lemma main_starts_browser_only_with_fills_witness :
  result (read_fill_list listing ["download_plots.py"; "no numbers"]) = Ok []
  /\ main no_compound listing service_down ["download_plots.py"; "no numbers"]
     = ([Print "No valid fill numbers provided."], Ok tt).
Proof.
  split; [reflexivity|].
  rewrite (proj2 (main_starts_browser_only_with_fills no_compound listing
                    service_down ["download_plots.py"; "no numbers"])
             eq_refl).
  reflexivity.
Defined.


(** X17. At the prompt, an interruption ends the script with status 0 and
    any other failure of the input (such as end of input) leaves it
    uncaught; an answer that is blank gives no fill and reads no file. *)
Theorem read_fill_list_prompt_edges :
  forall c argv,
    (List.length argv <= 1)%nat ->
    (forall e,
        prompt_line c = Raise e ->
        read_fill_list c argv
        = (prompt_events,
           Raise (if is_KeyboardInterrupt e then SystemExit 0 else e)))
    /\ (forall line,
          prompt_line c = Ok line -> strip line = "" ->
          read_fill_list c argv = (prompt_events, Ok [])).
Proof.
  intros c argv Hlen.
  assert (Hshape : argv = [] \/ exists prog, argv = [prog]).
  { destruct argv as [|prog [|a others]]; simpl in Hlen;
      [now left|right; now exists prog|lia]. }
  split.
  - intros e He.
    destruct Hshape as [-> | [prog ->]]; unfold read_fill_list;
      rewrite He; run; now destruct (is_KeyboardInterrupt e).
  - intros line Hline Hblank.
    destruct Hshape as [-> | [prog ->]]; unfold read_fill_list;
      rewrite Hline; run; now rewrite Hblank.
Qed.

Lemma read_fill_list_prompt_edges_witness :
  read_fill_list closed_terminal ["download_plots.py"]
  = (prompt_events, Raise (OtherException "EOFError")).
Proof.
  apply (proj1 (read_fill_list_prompt_edges closed_terminal
                  ["download_plots.py"] (le_n 1))
           (OtherException "EOFError")).
  reflexivity.
Defined.

(** ** The string operations of the parser *)

(** X18. Splitting at a character and joining with it are inverse: the
    pieces of a text joined again give the text, and a join of pieces that
    do not hold the character splits into those pieces. *)
Theorem split_char_and_join :
  (forall sep s, String.concat (String sep "") (split_char sep s) = s)
  /\ (forall sep piece pieces,
        Forall (fun t => all_chars (fun c => negb (Ascii.eqb c sep)) t = true)
               (piece :: pieces) ->
        split_char sep (String.concat (String sep "") (piece :: pieces))
        = piece :: pieces).
Proof. split; [exact concat_split_char|exact split_char_concat]. Qed.

Lemma split_char_and_join_witness :
  split_char ","%char (String.concat "," ["11316 1032"; " 222"; ""])
  = ["11316 1032"; " 222"; ""].
Proof.
  apply (proj2 split_char_and_join ","%char). repeat constructor.
Defined.

(** X19. The tokens of [split()] are never empty and hold no whitespace,
    and they are the same whether or not the text is stripped first. *)
Theorem split_ws_gives_clean_tokens :
  forall s,
    Forall (fun tok => tok <> "" /\ all_chars not_space tok = true)
           (split_ws s)
    /\ split_ws (strip s) = split_ws s.
Proof. intros s. split; [apply split_ws_tokens|apply split_ws_strip]. Qed.

Lemma split_ws_gives_clean_tokens_witness :
  split_ws (strip "  11316   1032 ") = ["11316"; "1032"].
Proof.
  rewrite (proj2 (split_ws_gives_clean_tokens "  11316   1032 ")).
  reflexivity.
Defined.
